(** * QtFT2XX: a Qt QIODevice wrapper around FTDI's D2XX driver

    Shallow embedding of [FT232] (qft2xx.h / qft2xx.cpp) and proofs about
    its receive pipeline, modem-status handling, configuration setters and
    open/close life cycle.

    The D2XX driver and the Win32 event API are external to the class: they
    are an oracle [drv] over an abstract hardware state, and every call made
    to it is logged together with its reply. *)

From Stdlib Require Import ZArith List String Ascii Bool Lia.
From Stdlib Require Import Init.Byte.
From Stdlib Require Import DecimalString.
Import ListNotations.
Local Open Scope string_scope.
Local Open Scope list_scope.
Local Open Scope Z_scope.

(** ** Fixed-width integers of the C++ source *)

Module CInt.

(** Conversion to [uint32_t] / [DWORD] / [ULONG]: reduction modulo 2^32. *)
Definition to_uint32 (z : Z) : Z := z mod 2 ^ 32.

(** Conversion to [qint32] / [int]: two's complement reading of the low
    32 bits. *)
Definition to_int32 (z : Z) : Z := (z + 2 ^ 31) mod 2 ^ 32 - 2 ^ 31.

(** Conversion to [uchar]. *)
Definition to_uchar (z : Z) : Z := z mod 2 ^ 8.

Definition INT32_MIN : Z := - 2 ^ 31.
Definition INT32_MAX : Z := 2 ^ 31 - 1.

(** C truth value of an integer: non-zero. *)
Definition truthy (z : Z) : bool := negb (z =? 0).

End CInt.
Import CInt.

(** ** The D2XX interface (ftd2xx.h)

    ftd2xx.h is FTDI's SDK header, not part of this repository; the
    constants below carry the values published in the D2XX Programmer's
    Guide. *)

Module D2XX.

Definition FT_STATUS := Z.
Definition FT_HANDLE := Z.
Definition DWORD := Z.
Definition HANDLE := Z.

Definition FT_OK : FT_STATUS := 0.
Definition FT_IO_ERROR : FT_STATUS := 4.

Definition FT_BITS_8 : Z := 8.
Definition FT_STOP_BITS_1 : Z := 0.
Definition FT_STOP_BITS_2 : Z := 2.
Definition FT_PARITY_NONE : Z := 0.
Definition FT_PARITY_ODD : Z := 1.
Definition FT_PARITY_EVEN : Z := 2.
Definition FT_PARITY_MARK : Z := 3.
Definition FT_PARITY_SPACE : Z := 4.

Definition FT_FLOW_NONE : Z := 0x0000.
Definition FT_FLOW_RTS_CTS : Z := 0x0100.
Definition FT_FLOW_DTR_DSR : Z := 0x0200.
Definition FT_FLOW_XON_XOFF : Z := 0x0400.

Definition FT_PURGE_RX : Z := 1.
Definition FT_PURGE_TX : Z := 2.

Definition FT_EVENT_RXCHAR : Z := 1.
Definition FT_EVENT_MODEM_STATUS : Z := 2.

(** The one field of [FT_DEVICE_LIST_INFO_NODE] the class reads. *)
Record FT_DEVICE_LIST_INFO_NODE := { ID : DWORD }.

(** The string fields of [FT_PROGRAM_DATA] the class reads. *)
Record FT_PROGRAM_DATA := {
  Manufacturer : string;
  Description : string;
  SerialNumber : string
}.

(** A call into the driver (or, for [CreateEvent], into Win32), indexed
    by the type of what comes back: the status first, then the values
    written through the out-parameters. *)
Inductive ftCall : Type -> Type :=
| FT_CreateDeviceInfoList : ftCall (FT_STATUS * DWORD)
| FT_GetDeviceInfoList (numDevs : DWORD)
    : ftCall (FT_STATUS * list FT_DEVICE_LIST_INFO_NODE)
| FT_Open (deviceId : Z) : ftCall (FT_STATUS * FT_HANDLE)
| FT_Close (h : FT_HANDLE) : ftCall FT_STATUS
| FT_SetBaudRate (h : FT_HANDLE) (baud : Z) : ftCall FT_STATUS
| FT_SetLatencyTimer (h : FT_HANDLE) (latency : Z) : ftCall FT_STATUS
| FT_SetTimeouts (h : FT_HANDLE) (readMs writeMs : Z) : ftCall FT_STATUS
| FT_EE_Read (h : FT_HANDLE) : ftCall (FT_STATUS * FT_PROGRAM_DATA)
| FT_GetLibraryVersion : ftCall (FT_STATUS * DWORD)
| FT_Purge (h : FT_HANDLE) (mask : Z) : ftCall FT_STATUS
| CreateEvent : ftCall HANDLE
| FT_SetEventNotification (h : FT_HANDLE) (mask : Z) (hEvent : HANDLE)
    : ftCall FT_STATUS
| FT_Write (h : FT_HANDLE) (buffer : list byte) (bytesToWrite : DWORD)
    : ftCall (FT_STATUS * DWORD)
| FT_SetDataCharacteristics (h : FT_HANDLE) (bits sbit parity : Z)
    : ftCall FT_STATUS
| FT_SetFlowControl (h : FT_HANDLE) (flowctrl xon xoff : Z) : ftCall FT_STATUS
| FT_SetDtr (h : FT_HANDLE) : ftCall FT_STATUS
| FT_ClrDtr (h : FT_HANDLE) : ftCall FT_STATUS
| FT_SetRts (h : FT_HANDLE) : ftCall FT_STATUS
| FT_ClrRts (h : FT_HANDLE) : ftCall FT_STATUS
| FT_GetModemStatus (h : FT_HANDLE) : ftCall (FT_STATUS * DWORD)
| FT_GetStatus (h : FT_HANDLE) : ftCall (FT_STATUS * (DWORD * DWORD * DWORD))
| FT_GetQueueStatus (h : FT_HANDLE) : ftCall (FT_STATUS * DWORD)
| FT_Read (h : FT_HANDLE) (count : DWORD) : ftCall (FT_STATUS * list byte).

(** A driver: each call answers and moves the hardware on. *)
Definition Driver (Hw : Type) : Type := forall R, ftCall R -> Hw -> R * Hw.

(** One entry of the call log: the call and what it answered. *)
Inductive Logged : Type :=
| Call {R : Type} (c : ftCall R) (r : R).

(** The purge masks of the [FT_Purge] calls of a log, in order. *)
Definition purge_mask (e : Logged) : list Z :=
  match e with
  | Call (FT_Purge _ mask) _ => [mask]
  | Call _ _ => []
  end.
Definition purges (log : list Logged) : list Z := flat_map purge_mask log.

(** The baud rates of the [FT_SetBaudRate] calls of a log, in order. *)
Definition baud_arg (e : Logged) : list Z :=
  match e with
  | Call (FT_SetBaudRate _ baud) _ => [baud]
  | Call _ _ => []
  end.
Definition bauds (log : list Logged) : list Z := flat_map baud_arg log.

(** The bytes a log entry took out of the hardware receive queue: what a
    successful [FT_Read] returned. *)
Definition read_chunk (e : Logged) : list (list byte) :=
  match e with
  | @Call R c r =>
      match c in ftCall R0 return R0 -> list (list byte) with
      | FT_Read _ _ => fun r => if fst r =? FT_OK then [snd r] else []
      | _ => fun _ => []
      end r
  end.
Definition chunks_read (log : list Logged) : list (list byte) :=
  flat_map read_chunk log.

End D2XX.
Import D2XX.

(** ** The class's own types (qft2xx.h) *)

(** [QIODevice::OpenMode] flags (Qt). *)
Definition OpenMode := Z.
Definition NotOpen : OpenMode := 0x0000.
Definition ReadWrite : OpenMode := 0x0003.

(** [FT232::PortError] and the flag set [PortErrors]. *)
Definition PortErrors := Z.
Definition NoError : PortErrors := 0x00.
Definition NotOpenError : PortErrors := 0x01.
Definition OverrunError : PortErrors := 0x02.
Definition ParityError : PortErrors := 0x04.
Definition FramingError : PortErrors := 0x10.
Definition BreakConditionError : PortErrors := 0x20.
Definition FIFOError : PortErrors := 0x40.
Definition ReadError : PortErrors := 0x80.

Inductive LineProperty :=
| SERIAL_8N1 | SERIAL_8N2 | SERIAL_8E1 | SERIAL_8E2
| SERIAL_8O1 | SERIAL_8O2 | SERIAL_8M1 | SERIAL_8M2
| SERIAL_8S1 | SERIAL_8S2.

Inductive FlowControl :=
| NoFlowControl | HardwareControl | SoftwareControl | DTR_DSR_FlowControl.

(** Latency timer value. *)
Definition FTDI_LATENCY : Z := 3.

(** The signals of the class, with [aboutToClose] of QIODevice and the
    base-class [readyRead] that [FT232::readyRead] shadows. *)
Inductive Signal :=
| baudRateChanged (baud : Z)
| linePropertyChanged (line : LineProperty)
| flowControlChanged (flow : FlowControl)
| dataTerminalReadyChanged (set : bool)
| requestToSendChanged (set : bool)
| errorOccurred
| readyRead
| QIODevice_readyRead
| connected
| aboutToClose.

(** What the class keeps of its [QWinEventNotifier]: the event handle,
    whether it is enabled (it is from construction on), and whether
    [activated] is connected to [on_FTDIevent]. *)
Record QWinEventNotifier := {
  hEvent : HANDLE;
  enabled : bool;
  activated_connected : bool
}.

(** The object: [openMode] and [errorString] of the QIODevice base, then
    the private members in declaration order. *)
Record FT232 := {
  openMode : OpenMode;
  errorString : string;
  FTDIdtr : bool;
  FTDIrts : bool;
  FTDIlineProperty : LineProperty;
  FTDIflowControl : FlowControl;
  errFlag : PortErrors;
  FTDIbaudRate : Z;
  usbVID : Z;
  usbPID : Z;
  productName : string;
  serialNmb : string;
  manufacturerName : string;
  libraryVersion : string;
  ftdiMutex : bool;
  ftdi : FT_HANDLE;
  FTDIreadBuffer : list byte;
  sem : Z;
  ftdiEventNotifier : option QWinEventNotifier
}.

(** Functional update of one member, one function per member. *)

Definition with_openMode (v : OpenMode) (s : FT232) : FT232 :=
  {| openMode := v; errorString := errorString s; FTDIdtr := FTDIdtr s; FTDIrts :=
     FTDIrts s; FTDIlineProperty := FTDIlineProperty s; FTDIflowControl :=
     FTDIflowControl s; errFlag := errFlag s; FTDIbaudRate := FTDIbaudRate s; usbVID :=
     usbVID s; usbPID := usbPID s; productName := productName s; serialNmb := serialNmb
     s; manufacturerName := manufacturerName s; libraryVersion := libraryVersion s;
     ftdiMutex := ftdiMutex s; ftdi := ftdi s; FTDIreadBuffer := FTDIreadBuffer s; sem :=
     sem s; ftdiEventNotifier := ftdiEventNotifier s |}.
Definition with_errorString (v : string) (s : FT232) : FT232 :=
  {| openMode := openMode s; errorString := v; FTDIdtr := FTDIdtr s; FTDIrts :=
     FTDIrts s; FTDIlineProperty := FTDIlineProperty s; FTDIflowControl :=
     FTDIflowControl s; errFlag := errFlag s; FTDIbaudRate := FTDIbaudRate s; usbVID :=
     usbVID s; usbPID := usbPID s; productName := productName s; serialNmb := serialNmb
     s; manufacturerName := manufacturerName s; libraryVersion := libraryVersion s;
     ftdiMutex := ftdiMutex s; ftdi := ftdi s; FTDIreadBuffer := FTDIreadBuffer s; sem :=
     sem s; ftdiEventNotifier := ftdiEventNotifier s |}.
Definition with_FTDIdtr (v : bool) (s : FT232) : FT232 :=
  {| openMode := openMode s; errorString := errorString s; FTDIdtr := v; FTDIrts :=
     FTDIrts s; FTDIlineProperty := FTDIlineProperty s; FTDIflowControl :=
     FTDIflowControl s; errFlag := errFlag s; FTDIbaudRate := FTDIbaudRate s; usbVID :=
     usbVID s; usbPID := usbPID s; productName := productName s; serialNmb := serialNmb
     s; manufacturerName := manufacturerName s; libraryVersion := libraryVersion s;
     ftdiMutex := ftdiMutex s; ftdi := ftdi s; FTDIreadBuffer := FTDIreadBuffer s; sem :=
     sem s; ftdiEventNotifier := ftdiEventNotifier s |}.
Definition with_FTDIrts (v : bool) (s : FT232) : FT232 :=
  {| openMode := openMode s; errorString := errorString s; FTDIdtr := FTDIdtr s;
     FTDIrts := v; FTDIlineProperty := FTDIlineProperty s; FTDIflowControl :=
     FTDIflowControl s; errFlag := errFlag s; FTDIbaudRate := FTDIbaudRate s; usbVID :=
     usbVID s; usbPID := usbPID s; productName := productName s; serialNmb := serialNmb
     s; manufacturerName := manufacturerName s; libraryVersion := libraryVersion s;
     ftdiMutex := ftdiMutex s; ftdi := ftdi s; FTDIreadBuffer := FTDIreadBuffer s; sem :=
     sem s; ftdiEventNotifier := ftdiEventNotifier s |}.
Definition with_FTDIlineProperty (v : LineProperty) (s : FT232) : FT232 :=
  {| openMode := openMode s; errorString := errorString s; FTDIdtr := FTDIdtr s;
     FTDIrts := FTDIrts s; FTDIlineProperty := v; FTDIflowControl := FTDIflowControl s;
     errFlag := errFlag s; FTDIbaudRate := FTDIbaudRate s; usbVID := usbVID s; usbPID :=
     usbPID s; productName := productName s; serialNmb := serialNmb s; manufacturerName
     := manufacturerName s; libraryVersion := libraryVersion s; ftdiMutex := ftdiMutex s;
     ftdi := ftdi s; FTDIreadBuffer := FTDIreadBuffer s; sem := sem s; ftdiEventNotifier
     := ftdiEventNotifier s |}.
Definition with_FTDIflowControl (v : FlowControl) (s : FT232) : FT232 :=
  {| openMode := openMode s; errorString := errorString s; FTDIdtr := FTDIdtr s;
     FTDIrts := FTDIrts s; FTDIlineProperty := FTDIlineProperty s; FTDIflowControl := v;
     errFlag := errFlag s; FTDIbaudRate := FTDIbaudRate s; usbVID := usbVID s; usbPID :=
     usbPID s; productName := productName s; serialNmb := serialNmb s; manufacturerName
     := manufacturerName s; libraryVersion := libraryVersion s; ftdiMutex := ftdiMutex s;
     ftdi := ftdi s; FTDIreadBuffer := FTDIreadBuffer s; sem := sem s; ftdiEventNotifier
     := ftdiEventNotifier s |}.
Definition with_errFlag (v : PortErrors) (s : FT232) : FT232 :=
  {| openMode := openMode s; errorString := errorString s; FTDIdtr := FTDIdtr s;
     FTDIrts := FTDIrts s; FTDIlineProperty := FTDIlineProperty s; FTDIflowControl :=
     FTDIflowControl s; errFlag := v; FTDIbaudRate := FTDIbaudRate s; usbVID := usbVID s;
     usbPID := usbPID s; productName := productName s; serialNmb := serialNmb s;
     manufacturerName := manufacturerName s; libraryVersion := libraryVersion s;
     ftdiMutex := ftdiMutex s; ftdi := ftdi s; FTDIreadBuffer := FTDIreadBuffer s; sem :=
     sem s; ftdiEventNotifier := ftdiEventNotifier s |}.
Definition with_FTDIbaudRate (v : Z) (s : FT232) : FT232 :=
  {| openMode := openMode s; errorString := errorString s; FTDIdtr := FTDIdtr s;
     FTDIrts := FTDIrts s; FTDIlineProperty := FTDIlineProperty s; FTDIflowControl :=
     FTDIflowControl s; errFlag := errFlag s; FTDIbaudRate := v; usbVID := usbVID s;
     usbPID := usbPID s; productName := productName s; serialNmb := serialNmb s;
     manufacturerName := manufacturerName s; libraryVersion := libraryVersion s;
     ftdiMutex := ftdiMutex s; ftdi := ftdi s; FTDIreadBuffer := FTDIreadBuffer s; sem :=
     sem s; ftdiEventNotifier := ftdiEventNotifier s |}.
Definition with_usbVID (v : Z) (s : FT232) : FT232 :=
  {| openMode := openMode s; errorString := errorString s; FTDIdtr := FTDIdtr s;
     FTDIrts := FTDIrts s; FTDIlineProperty := FTDIlineProperty s; FTDIflowControl :=
     FTDIflowControl s; errFlag := errFlag s; FTDIbaudRate := FTDIbaudRate s; usbVID :=
     v; usbPID := usbPID s; productName := productName s; serialNmb := serialNmb s;
     manufacturerName := manufacturerName s; libraryVersion := libraryVersion s;
     ftdiMutex := ftdiMutex s; ftdi := ftdi s; FTDIreadBuffer := FTDIreadBuffer s; sem :=
     sem s; ftdiEventNotifier := ftdiEventNotifier s |}.
Definition with_usbPID (v : Z) (s : FT232) : FT232 :=
  {| openMode := openMode s; errorString := errorString s; FTDIdtr := FTDIdtr s;
     FTDIrts := FTDIrts s; FTDIlineProperty := FTDIlineProperty s; FTDIflowControl :=
     FTDIflowControl s; errFlag := errFlag s; FTDIbaudRate := FTDIbaudRate s; usbVID :=
     usbVID s; usbPID := v; productName := productName s; serialNmb := serialNmb s;
     manufacturerName := manufacturerName s; libraryVersion := libraryVersion s;
     ftdiMutex := ftdiMutex s; ftdi := ftdi s; FTDIreadBuffer := FTDIreadBuffer s; sem :=
     sem s; ftdiEventNotifier := ftdiEventNotifier s |}.
Definition with_productName (v : string) (s : FT232) : FT232 :=
  {| openMode := openMode s; errorString := errorString s; FTDIdtr := FTDIdtr s;
     FTDIrts := FTDIrts s; FTDIlineProperty := FTDIlineProperty s; FTDIflowControl :=
     FTDIflowControl s; errFlag := errFlag s; FTDIbaudRate := FTDIbaudRate s; usbVID :=
     usbVID s; usbPID := usbPID s; productName := v; serialNmb := serialNmb s;
     manufacturerName := manufacturerName s; libraryVersion := libraryVersion s;
     ftdiMutex := ftdiMutex s; ftdi := ftdi s; FTDIreadBuffer := FTDIreadBuffer s; sem :=
     sem s; ftdiEventNotifier := ftdiEventNotifier s |}.
Definition with_serialNmb (v : string) (s : FT232) : FT232 :=
  {| openMode := openMode s; errorString := errorString s; FTDIdtr := FTDIdtr s;
     FTDIrts := FTDIrts s; FTDIlineProperty := FTDIlineProperty s; FTDIflowControl :=
     FTDIflowControl s; errFlag := errFlag s; FTDIbaudRate := FTDIbaudRate s; usbVID :=
     usbVID s; usbPID := usbPID s; productName := productName s; serialNmb := v;
     manufacturerName := manufacturerName s; libraryVersion := libraryVersion s;
     ftdiMutex := ftdiMutex s; ftdi := ftdi s; FTDIreadBuffer := FTDIreadBuffer s; sem :=
     sem s; ftdiEventNotifier := ftdiEventNotifier s |}.
Definition with_manufacturerName (v : string) (s : FT232) : FT232 :=
  {| openMode := openMode s; errorString := errorString s; FTDIdtr := FTDIdtr s;
     FTDIrts := FTDIrts s; FTDIlineProperty := FTDIlineProperty s; FTDIflowControl :=
     FTDIflowControl s; errFlag := errFlag s; FTDIbaudRate := FTDIbaudRate s; usbVID :=
     usbVID s; usbPID := usbPID s; productName := productName s; serialNmb := serialNmb
     s; manufacturerName := v; libraryVersion := libraryVersion s; ftdiMutex := ftdiMutex
     s; ftdi := ftdi s; FTDIreadBuffer := FTDIreadBuffer s; sem := sem s;
     ftdiEventNotifier := ftdiEventNotifier s |}.
Definition with_libraryVersion (v : string) (s : FT232) : FT232 :=
  {| openMode := openMode s; errorString := errorString s; FTDIdtr := FTDIdtr s;
     FTDIrts := FTDIrts s; FTDIlineProperty := FTDIlineProperty s; FTDIflowControl :=
     FTDIflowControl s; errFlag := errFlag s; FTDIbaudRate := FTDIbaudRate s; usbVID :=
     usbVID s; usbPID := usbPID s; productName := productName s; serialNmb := serialNmb
     s; manufacturerName := manufacturerName s; libraryVersion := v; ftdiMutex :=
     ftdiMutex s; ftdi := ftdi s; FTDIreadBuffer := FTDIreadBuffer s; sem := sem s;
     ftdiEventNotifier := ftdiEventNotifier s |}.
Definition with_ftdiMutex (v : bool) (s : FT232) : FT232 :=
  {| openMode := openMode s; errorString := errorString s; FTDIdtr := FTDIdtr s;
     FTDIrts := FTDIrts s; FTDIlineProperty := FTDIlineProperty s; FTDIflowControl :=
     FTDIflowControl s; errFlag := errFlag s; FTDIbaudRate := FTDIbaudRate s; usbVID :=
     usbVID s; usbPID := usbPID s; productName := productName s; serialNmb := serialNmb
     s; manufacturerName := manufacturerName s; libraryVersion := libraryVersion s;
     ftdiMutex := v; ftdi := ftdi s; FTDIreadBuffer := FTDIreadBuffer s; sem := sem s;
     ftdiEventNotifier := ftdiEventNotifier s |}.
Definition with_ftdi (v : FT_HANDLE) (s : FT232) : FT232 :=
  {| openMode := openMode s; errorString := errorString s; FTDIdtr := FTDIdtr s;
     FTDIrts := FTDIrts s; FTDIlineProperty := FTDIlineProperty s; FTDIflowControl :=
     FTDIflowControl s; errFlag := errFlag s; FTDIbaudRate := FTDIbaudRate s; usbVID :=
     usbVID s; usbPID := usbPID s; productName := productName s; serialNmb := serialNmb
     s; manufacturerName := manufacturerName s; libraryVersion := libraryVersion s;
     ftdiMutex := ftdiMutex s; ftdi := v; FTDIreadBuffer := FTDIreadBuffer s; sem := sem
     s; ftdiEventNotifier := ftdiEventNotifier s |}.
Definition with_FTDIreadBuffer (v : list byte) (s : FT232) : FT232 :=
  {| openMode := openMode s; errorString := errorString s; FTDIdtr := FTDIdtr s;
     FTDIrts := FTDIrts s; FTDIlineProperty := FTDIlineProperty s; FTDIflowControl :=
     FTDIflowControl s; errFlag := errFlag s; FTDIbaudRate := FTDIbaudRate s; usbVID :=
     usbVID s; usbPID := usbPID s; productName := productName s; serialNmb := serialNmb
     s; manufacturerName := manufacturerName s; libraryVersion := libraryVersion s;
     ftdiMutex := ftdiMutex s; ftdi := ftdi s; FTDIreadBuffer := v; sem := sem s;
     ftdiEventNotifier := ftdiEventNotifier s |}.
Definition with_sem (v : Z) (s : FT232) : FT232 :=
  {| openMode := openMode s; errorString := errorString s; FTDIdtr := FTDIdtr s;
     FTDIrts := FTDIrts s; FTDIlineProperty := FTDIlineProperty s; FTDIflowControl :=
     FTDIflowControl s; errFlag := errFlag s; FTDIbaudRate := FTDIbaudRate s; usbVID :=
     usbVID s; usbPID := usbPID s; productName := productName s; serialNmb := serialNmb
     s; manufacturerName := manufacturerName s; libraryVersion := libraryVersion s;
     ftdiMutex := ftdiMutex s; ftdi := ftdi s; FTDIreadBuffer := FTDIreadBuffer s; sem :=
     v; ftdiEventNotifier := ftdiEventNotifier s |}.
Definition with_ftdiEventNotifier (v : option QWinEventNotifier) (s : FT232) : FT232 :=
  {| openMode := openMode s; errorString := errorString s; FTDIdtr := FTDIdtr s;
     FTDIrts := FTDIrts s; FTDIlineProperty := FTDIlineProperty s; FTDIflowControl :=
     FTDIflowControl s; errFlag := errFlag s; FTDIbaudRate := FTDIbaudRate s; usbVID :=
     usbVID s; usbPID := usbPID s; productName := productName s; serialNmb := serialNmb
     s; manufacturerName := manufacturerName s; libraryVersion := libraryVersion s;
     ftdiMutex := ftdiMutex s; ftdi := ftdi s; FTDIreadBuffer := FTDIreadBuffer s; sem :=
     sem s; ftdiEventNotifier := v |}.

(** ** The world the member functions run in *)

(** The object, the hardware behind the driver, the log of driver calls
    and the signals emitted so far (both oldest first). *)
Record World (Hw : Type) := {
  self : FT232;
  hw : Hw;
  calls : list Logged;
  emitted : list Signal
}.
Arguments self {Hw} _.
Arguments hw {Hw} _.
Arguments calls {Hw} _.
Arguments emitted {Hw} _.

(** A member function either returns, or blocks for ever on the
    non-recursive [QMutex], or leaves defined behaviour. *)
Inductive Outcome (Hw A : Type) : Type :=
| Ok (a : A) (w : World Hw)
| Deadlock
| Undefined.
Arguments Ok {Hw A} _ _.
Arguments Deadlock {Hw A}.
Arguments Undefined {Hw A}.

Definition M (Hw A : Type) : Type := World Hw -> Outcome Hw A.

Definition pure {Hw A} (a : A) : M Hw A := fun w => Ok a w.

Definition bind {Hw A B} (m : M Hw A) (k : A -> M Hw B) : M Hw B :=
  fun w =>
    match m w with
    | Ok a w' => k a w'
    | Deadlock => Deadlock
    | Undefined => Undefined
    end.

Declare Scope ft_scope.
Delimit Scope ft_scope with ft.
Notation "x <- m ;; k" := (bind m (fun x => k))
  (at level 61, m at next level, right associativity) : ft_scope.
Notation "' pat <- m ;; k" := (bind m (fun x => match x with pat => k end))
  (at level 61, pat pattern, m at next level, right associativity) : ft_scope.
Notation "m ;; k" := (bind m (fun _ => k))
  (at level 61, right associativity) : ft_scope.
Local Open Scope ft_scope.

Section Primitives.
Context {Hw : Type}.

Definition gets {A} (f : FT232 -> A) : M Hw A :=
  fun w => Ok (f (self w)) w.

Definition modify (f : FT232 -> FT232) : M Hw unit :=
  fun w => Ok tt {| self := f (self w); hw := hw w;
                    calls := calls w; emitted := emitted w |}.

(** [emit sig]. *)
Definition emit (s : Signal) : M Hw unit :=
  fun w => Ok tt {| self := self w; hw := hw w;
                    calls := calls w; emitted := emitted w ++ [s] |}.

(** [QMutex::lock]: blocks while the mutex is held. *)
Definition lock : M Hw unit :=
  fun w => if ftdiMutex (self w) then Deadlock
           else modify (with_ftdiMutex true) w.

(** [QMutex::unlock]: only defined on a locked mutex. *)
Definition unlock : M Hw unit :=
  fun w => if ftdiMutex (self w) then modify (with_ftdiMutex false) w
           else Undefined.

(** [QSemaphore::tryAcquire(n)]: takes [n] if that many are available,
    never waits; [n] must not be negative. *)
Definition sem_tryAcquire (n : Z) : M Hw bool :=
  fun w =>
    if n <? 0 then Undefined
    else if n <=? sem (self w) then
      Ok true {| self := with_sem (sem (self w) - n) (self w); hw := hw w;
                 calls := calls w; emitted := emitted w |}
    else Ok false w.

(** [QSemaphore::release(n)]. *)
Definition sem_release (n : Z) : M Hw unit :=
  fun w => if n <? 0 then Undefined
           else modify (fun s => with_sem (sem s + n) s) w.

(** [QIODevice::isOpen], [setOpenMode], [setErrorString]. *)
Definition isOpen : M Hw bool :=
  gets (fun s => negb (openMode s =? NotOpen)).
Definition setOpenMode (m : OpenMode) : M Hw unit :=
  modify (with_openMode m).
Definition setErrorString (s : string) : M Hw unit :=
  modify (with_errorString s).

(** A call into the driver [drv], logged with its reply. *)
Definition call (drv : Driver Hw) {R} (c : ftCall R) : M Hw R :=
  fun w =>
    let (r, hw') := drv R c (hw w) in
    Ok r {| self := self w; hw := hw';
            calls := calls w ++ [Call c r]; emitted := emitted w |}.

End Primitives.

(** ** Helpers for the Qt string calls of [open] *)

Definition ascii_toUpper (c : ascii) : ascii :=
  let n := N_of_ascii c in
  if ((97 <=? n) && (n <=? 122))%N then ascii_of_N (n - 32) else c.

Fixpoint toUpper (s : string) : string :=
  match s with
  | EmptyString => EmptyString
  | String c s' => String (ascii_toUpper c) (toUpper s')
  end.

Fixpoint zeros (n : nat) : string :=
  match n with
  | O => EmptyString
  | S n' => String "0"%char (zeros n')
  end.

(** [QString::arg(a, fieldWidth, 10, QLatin1Char('0'))] on a non-negative
    integer. *)
Definition arg_dec (a : Z) (fieldWidth : nat) : string :=
  let digits := NilZero.string_of_uint (N.to_uint (Z.to_N a)) in
  (zeros (fieldWidth - String.length digits) ++ digits)%string.

Arguments arg_dec : simpl never.

(** The first index [i] at or after [i0] with [devinfo[i].ID == id], or -1:
    the search loop of [open]. *)
Fixpoint find_device (id : Z) (devinfo : list FT_DEVICE_LIST_INFO_NODE)
    (i0 : Z) : Z :=
  match devinfo with
  | [] => -1
  | node :: rest => if ID node =? id then i0 else find_device id rest (i0 + 1)
  end.

(** ** The member functions of [FT232] (qft2xx.cpp) *)

Section FT232_members.
Context {Hw : Type} (drv : Driver Hw).

(** [void FT232::close()] *)
Definition close : M Hw unit :=
  lock ;;
  h <- gets ftdi ;;
  _ <- call drv (FT_Close h) ;;
  unlock ;;
  setOpenMode NotOpen ;;
  emit aboutToClose.

(** [void setPort(int VID, int PID)] *)
Definition setPort (VID PID : Z) : M Hw unit :=
  modify (with_usbVID VID) ;;
  modify (with_usbPID PID).

(** [bool FT232::open(QIODevice::OpenMode mode)].  The reply of
    [FT_GetDeviceInfoList] is the array of [numDevs] nodes the driver
    filled in; the reply of [FT_Open] carries what the driver left in
    [ftdi]. *)
Definition open (mode : OpenMode) : M Hw bool :=
  '(ret, numDevs) <- call drv FT_CreateDeviceInfoList ;;
  if negb (ret =? FT_OK) then
    setErrorString "an error occured while enumerating devices" ;;
    pure false
  else
  '(ret, devinfo) <- call drv (FT_GetDeviceInfoList numDevs) ;;
  if negb (ret =? FT_OK) then
    setErrorString "an error occured while obtaining device info list" ;;
    pure false
  else
  vid <- gets usbVID ;;
  pid <- gets usbPID ;;
  let deviceId :=
    find_device (to_uint32 (to_uint32 vid * 0x10000 + to_uint32 pid))
                devinfo 0 in
  if deviceId =? -1 then
    setErrorString "no compatible devices found" ;;
    pure false
  else
  '(ret, h) <- call drv (FT_Open deviceId) ;;
  modify (with_ftdi h) ;;
  if negb (ret =? FT_OK) then
    setErrorString "an error occured while opening the device" ;;
    pure false
  else
  h <- gets ftdi ;;
  baud <- gets FTDIbaudRate ;;
  ret <- call drv (FT_SetBaudRate h baud) ;;
  if negb (ret =? FT_OK) then
    setErrorString "an error occured while setting the baudrate" ;;
    close ;;
    pure false
  else
  ret <- call drv (FT_SetLatencyTimer h FTDI_LATENCY) ;;
  if negb (ret =? FT_OK) then
    setErrorString "an error occured while setting the latency timer" ;;
    close ;;
    pure false
  else
  ret <- call drv (FT_SetTimeouts h 5000 2000) ;;
  if negb (ret =? FT_OK) then
    setErrorString "an error occured while setting the timeouts" ;;
    close ;;
    pure false
  else
  '(ret, ftData) <- call drv (FT_EE_Read h) ;;
  if negb (ret =? FT_OK) then
    setErrorString "an error occured while reading the EEPROM" ;;
    close ;;
    pure false
  else
  modify (with_productName (Description ftData)) ;;
  modify (with_serialNmb (toUpper (SerialNumber ftData))) ;;
  modify (with_manufacturerName (Manufacturer ftData)) ;;
  '(ret, libVer) <- call drv FT_GetLibraryVersion ;;
  if negb (ret =? FT_OK) then
    setErrorString
      "an error occured while getting the FTD2XX library version" ;;
    close ;;
    pure false
  else
  let major := to_uchar (Z.land libVer 0xFF0000) in
  let minor := to_uchar (Z.land libVer 0xFF00) in
  let build := to_uchar (Z.land libVer 0xFF) in
  modify (with_libraryVersion
            (arg_dec major 1 ++ "." ++ arg_dec minor 2 ++ "."
             ++ arg_dec build 2)%string) ;;
  _ <- call drv (FT_Purge h (Z.lor FT_PURGE_RX FT_PURGE_TX)) ;;
  setOpenMode mode ;;
  hEvent <- call drv CreateEvent ;;
  modify (with_ftdiEventNotifier
            (Some {| hEvent := hEvent; enabled := true;
                     activated_connected := false |})) ;;
  ret <- call drv (FT_SetEventNotification
                 h (Z.lor FT_EVENT_RXCHAR FT_EVENT_MODEM_STATUS) hEvent) ;;
  if negb (ret =? FT_OK) then
    setErrorString "an error occured while setting the event notification" ;;
    close ;;
    pure false
  else
  modify (with_ftdiEventNotifier
            (Some {| hEvent := hEvent; enabled := true;
                     activated_connected := true |})) ;;
  emit connected ;;
  pure true.

(** [qint64 FT232::readData(char *data, qint64 maxSize)]: the count
    returned and the bytes copied to [data]. *)
Definition readData (maxSize : Z) : M Hw (Z * list byte) :=
  buf <- gets FTDIreadBuffer ;;
  let n := Z.min maxSize (Z.of_nat (List.length buf)) in
  if n =? 0 then pure (0, [])
  else
  acquired <- sem_tryAcquire n ;;
  if negb acquired then pure (0, [])
  else
  modify (with_FTDIreadBuffer (skipn (Z.to_nat n) buf)) ;;
  pure (n, firstn (Z.to_nat n) buf).

(** [qint64 FT232::writeData(const char *data, qint64 maxSize)], with
    [maxSize] the length of [data]. *)
Definition writeData (data : list byte) : M Hw Z :=
  let maxSize := Z.of_nat (List.length data) in
  lock ;;
  h <- gets ftdi ;;
  '(ret, _bytesWritten) <- call drv (FT_Write h data (to_uint32 maxSize)) ;;
  unlock ;;
  if negb (ret =? FT_OK) then
    setErrorString "an error occured while writing to the port" ;;
    pure (-1)
  else
  pure ret.

(** [bool FT232::setBaudRate(qint32 baud)] *)
Definition setBaudRate (baud : Z) : M Hw bool :=
  modify (with_FTDIbaudRate (to_uint32 baud)) ;;
  o <- isOpen ;;
  if negb o then pure true
  else
  lock ;;
  h <- gets ftdi ;;
  b <- gets FTDIbaudRate ;;
  ret <- call drv (FT_SetBaudRate h b) ;;
  unlock ;;
  if negb (ret =? FT_OK) then
    setErrorString "an error occured while setting the baudrate" ;;
    close ;;
    pure false
  else
  emit (baudRateChanged baud) ;;
  pure true.

(** [qint32 baudRate()] *)
Definition baudRate : M Hw Z := gets (fun s => to_int32 (FTDIbaudRate s)).

(** The [switch] of [setLineProperty]: (parity, stop bits). *)
Definition line_parity_sbit (line : LineProperty) : Z * Z :=
  match line with
  | SERIAL_8N1 => (FT_PARITY_NONE, FT_STOP_BITS_1)
  | SERIAL_8N2 => (FT_PARITY_NONE, FT_STOP_BITS_2)
  | SERIAL_8E1 => (FT_PARITY_EVEN, FT_STOP_BITS_1)
  | SERIAL_8E2 => (FT_PARITY_EVEN, FT_STOP_BITS_2)
  | SERIAL_8O1 => (FT_PARITY_ODD, FT_STOP_BITS_1)
  | SERIAL_8O2 => (FT_PARITY_ODD, FT_STOP_BITS_2)
  | SERIAL_8M1 => (FT_PARITY_MARK, FT_STOP_BITS_1)
  | SERIAL_8M2 => (FT_PARITY_MARK, FT_STOP_BITS_2)
  | SERIAL_8S1 => (FT_PARITY_SPACE, FT_STOP_BITS_1)
  | SERIAL_8S2 => (FT_PARITY_SPACE, FT_STOP_BITS_2)
  end.

(** [bool FT232::setLineProperty(LineProperty line)] *)
Definition setLineProperty (line : LineProperty) : M Hw bool :=
  let bits := FT_BITS_8 in
  modify (with_FTDIlineProperty line) ;;
  let '(parity, sbit) := line_parity_sbit line in
  lock ;;
  h <- gets ftdi ;;
  ret <- call drv (FT_SetDataCharacteristics h bits sbit parity) ;;
  unlock ;;
  if negb (ret =? FT_OK) then
    setErrorString
      "an error occured while setting the data characteristics" ;;
    pure false
  else
  emit (linePropertyChanged line) ;;
  pure true.

(** The [switch] of [setFlowControl]. *)
Definition flow_code (flow : FlowControl) : Z :=
  match flow with
  | NoFlowControl => FT_FLOW_NONE
  | HardwareControl => FT_FLOW_RTS_CTS
  | SoftwareControl => FT_FLOW_XON_XOFF
  | DTR_DSR_FlowControl => FT_FLOW_DTR_DSR
  end.

(** [bool FT232::setFlowControl(FlowControl flow)] *)
Definition setFlowControl (flow : FlowControl) : M Hw bool :=
  let flowctrl := flow_code flow in
  lock ;;
  h <- gets ftdi ;;
  ret <- call drv (FT_SetFlowControl h flowctrl 0x11 0x13) ;;
  unlock ;;
  if negb (ret =? FT_OK) then
    setErrorString "an error occured while setting the flow control" ;;
    pure false
  else
  modify (with_FTDIflowControl flow) ;;
  emit (flowControlChanged flow) ;;
  pure true.

(** [bool FT232::setDataTerminalReady(bool set)] *)
Definition setDataTerminalReady (set : bool) : M Hw bool :=
  o <- isOpen ;;
  if negb o then pure false
  else
  lock ;;
  h <- gets ftdi ;;
  ret <- (if set then call drv (FT_SetDtr h) else call drv (FT_ClrDtr h)) ;;
  unlock ;;
  if negb (ret =? FT_OK) then
    setErrorString "an error occured while setting the DTR" ;;
    pure false
  else
  modify (with_FTDIdtr set) ;;
  emit (dataTerminalReadyChanged set) ;;
  pure true.

(** [bool FT232::setRequestToSend(bool set)] *)
Definition setRequestToSend (set : bool) : M Hw bool :=
  o <- isOpen ;;
  if negb o then pure false
  else
  lock ;;
  h <- gets ftdi ;;
  ret <- (if set then call drv (FT_SetRts h) else call drv (FT_ClrRts h)) ;;
  unlock ;;
  if negb (ret =? FT_OK) then
    setErrorString "an error occured while setting the RTS" ;;
    pure false
  else
  modify (with_FTDIrts set) ;;
  emit (requestToSendChanged set) ;;
  pure true.

(** [errFlag = isOpen() ? ReadError : NotOpenError], as written out in
    each failure branch of the event handlers. *)
Definition flag_by_open : M Hw unit :=
  o <- isOpen ;;
  if negb o then modify (with_errFlag NotOpenError)
  else modify (with_errFlag ReadError).

(** [void FT232::on_FTDImodemError()] *)
Definition on_FTDImodemError : M Hw unit :=
  lock ;;
  h <- gets ftdi ;;
  '(ret, modemStatus) <- call drv (FT_GetModemStatus h) ;;
  unlock ;;
  if negb (ret =? FT_OK) then
    setErrorString "an error occured while reading the device status" ;;
    flag_by_open ;;
    emit errorOccurred
  else
  if truthy (Z.land modemStatus 0x8E00) (* 0b1000111000000000 *) then
    lock ;;
    h <- gets ftdi ;;
    _ <- call drv (FT_Purge h (Z.lor FT_PURGE_RX FT_PURGE_TX)) ;;
    unlock
  else
  let retval := NoError in
  let retval := if truthy (Z.land modemStatus 0x8000)
                then Z.lor retval FIFOError else retval in
  let retval := if truthy (Z.land modemStatus 0x1000)
                then Z.lor retval BreakConditionError else retval in
  let retval := if truthy (Z.land modemStatus 0x0800)
                then Z.lor retval FramingError else retval in
  let retval := if truthy (Z.land modemStatus 0x0400)
                then Z.lor retval ParityError else retval in
  let retval := if truthy (Z.land modemStatus 0x0200)
                then Z.lor retval OverrunError else retval in
  modify (with_errFlag retval).

(** [void FT232::on_FTDIreceive()].  The reply of [FT_Read] carries
    the [bytesReturned] bytes the driver stored in [buff]. *)
Definition on_FTDIreceive : M Hw unit :=
  lock ;;
  h <- gets ftdi ;;
  '(ret, bytesAvailable) <- call drv (FT_GetQueueStatus h) ;;
  '(ret, buff) <- (if 0 <? bytesAvailable
                   then call drv (FT_Read h bytesAvailable)
                   else pure (ret, [])) ;;
  unlock ;;
  if (0 <? bytesAvailable) && (ret =? FT_IO_ERROR) then
    setErrorString "an IO error occured" ;;
    flag_by_open ;;
    emit errorOccurred
  else
  if (0 <? bytesAvailable) && negb (ret =? FT_OK) then
    setErrorString "an error occured while reading bytes from the device" ;;
    flag_by_open ;;
    emit errorOccurred
  else
  if 0 <? bytesAvailable then
    let data := buff in
    modify (fun s => with_FTDIreadBuffer (FTDIreadBuffer s ++ data) s) ;;
    sem_release (Z.of_nat (List.length data)) ;;
    emit readyRead ;;
    emit QIODevice_readyRead
  else pure tt.

(** [void FT232::on_FTDIevent()] *)
Definition on_FTDIevent : M Hw unit :=
  lock ;;
  h <- gets ftdi ;;
  '(ret, (RxBytes, TxBytes, EventDWord)) <- call drv (FT_GetStatus h) ;;
  unlock ;;
  if negb (ret =? FT_OK) then
    setErrorString "an error occured while reading the device status" ;;
    flag_by_open ;;
    emit errorOccurred
  else
  if truthy (Z.land EventDWord FT_EVENT_MODEM_STATUS) then on_FTDImodemError
  else if truthy (Z.land EventDWord FT_EVENT_RXCHAR) then on_FTDIreceive
  else pure tt.

(** [PortErrors error()] and [void clearError()] *)
Definition error : M Hw PortErrors := gets errFlag.
Definition clearError : M Hw unit := modify (with_errFlag NoError).

(** [n] receive events in a row. *)
Fixpoint drains (n : nat) : M Hw unit :=
  match n with
  | O => pure tt
  | S n' => on_FTDIreceive ;; drains n'
  end.

End FT232_members.

Arguments close {Hw} drv _ : simpl never.

(** ** Construction *)

(** [FT232::FT232(QObject *parent)]: the base class starts closed, the
    default member initialisers give baud rate 115200, empty flags, strings
    and buffer, a free mutex and a semaphore of 0; the members without an
    initialiser hold whatever the arguments say. *)
Definition FT232_new (dtr rts : bool) (line : LineProperty)
    (flow : FlowControl) (vid pid : Z) (h : FT_HANDLE) : FT232 :=
  {| openMode := NotOpen; errorString := "";
     FTDIdtr := dtr; FTDIrts := rts;
     FTDIlineProperty := line; FTDIflowControl := flow;
     errFlag := NoError; FTDIbaudRate := 115200;
     usbVID := vid; usbPID := pid;
     productName := ""; serialNmb := ""; manufacturerName := "";
     libraryVersion := "";
     ftdiMutex := false; ftdi := h;
     FTDIreadBuffer := []; sem := 0;
     ftdiEventNotifier := None |}.

Definition start {Hw} (obj : FT232) (hw0 : Hw) : World Hw :=
  {| self := obj; hw := hw0; calls := []; emitted := [] |}.

(** ** A simulated device, for running the model *)

Module Sim.

(** The attached devices, the chunks that will show up in the receive
    queue (one per poll), the modem status word, the status the driver
    answers every call with, and the next handle it hands out. *)
Record Hw := {
  devices : list FT_DEVICE_LIST_INFO_NODE;
  rx_pending : list (list byte);
  modem : DWORD;
  answer : FT_STATUS;
  next_handle : FT_HANDLE
}.

Definition pop_rx (s : Hw) : Hw :=
  {| devices := devices s; rx_pending := tl (rx_pending s);
     modem := modem s; answer := answer s; next_handle := next_handle s |}.

Definition head_rx (s : Hw) : list byte := hd [] (rx_pending s).

Definition driver : Driver Hw :=
  fun R c =>
    match c in ftCall R0 return Hw -> R0 * Hw with
    | FT_CreateDeviceInfoList =>
        fun s => ((answer s, Z.of_nat (List.length (devices s))), s)
    | FT_GetDeviceInfoList _ => fun s => ((answer s, devices s), s)
    | FT_Open _ => fun s => ((answer s, next_handle s), s)
    | FT_EE_Read _ =>
        fun s => ((answer s,
                   {| Manufacturer := "FTDI"; Description := "FT232R USB UART";
                      SerialNumber := "a50285bi" |}), s)
    | FT_GetLibraryVersion => fun s => ((answer s, 0x00030216), s)
    | CreateEvent => fun s => (0x1F4, s)
    | FT_Write _ buffer n =>
        fun s => ((answer s, Z.min n (Z.of_nat (List.length buffer))), s)
    | FT_GetModemStatus _ => fun s => ((answer s, modem s), s)
    | FT_GetStatus _ =>
        fun s => ((answer s,
                   (Z.of_nat (List.length (head_rx s)), 0, FT_EVENT_RXCHAR)), s)
    | FT_GetQueueStatus _ =>
        fun s => ((answer s, Z.of_nat (List.length (head_rx s))), s)
    | FT_Read _ n =>
        fun s => ((answer s, firstn (Z.to_nat n) (head_rx s)), pop_rx s)
    | FT_Close _ | FT_SetBaudRate _ _ | FT_SetLatencyTimer _ _
    | FT_SetTimeouts _ _ _ | FT_Purge _ _ | FT_SetEventNotification _ _ _
    | FT_SetDataCharacteristics _ _ _ _ | FT_SetFlowControl _ _ _ _
    | FT_SetDtr _ | FT_ClrDtr _ | FT_SetRts _ | FT_ClrRts _ =>
        fun s => (answer s, s)
    end.

(** A device with the default FTDI identifiers 0403:6001. *)
Definition device (rx : list (list byte)) (ms : DWORD) (st : FT_STATUS) : Hw :=
  {| devices := [ {| ID := 0x12345678 |}; {| ID := 0x04036001 |} ];
     rx_pending := rx; modem := ms; answer := st; next_handle := 0x7000 |}.

(** A freshly constructed object set to the default port. *)
Definition fresh : FT232 :=
  FT232_new false false SERIAL_8N1 NoFlowControl 0x0403 0x6001 0.

(** The same object as an open session on handle 0x7000. *)
Definition opened : FT232 := with_ftdi 0x7000 (with_openMode ReadWrite fresh).

End Sim.

(** ** Modem status bits *)

(** The error bits of the modem status word, as [on_FTDImodemError] maps
    them to [PortError] flags. *)
Definition OE_bit : Z := 0x0200.
Definition PE_bit : Z := 0x0400.
Definition FE_bit : Z := 0x0800.
Definition BI_bit : Z := 0x1000.
Definition FIFO_bit : Z := 0x8000.

Definition bit_set (modemStatus bit : Z) : Prop := Z.land modemStatus bit <> 0.

(** One of the errors marked serious in the handler: overrun, parity,
    framing, receiver FIFO. *)
Definition serious_error (modemStatus : Z) : Prop :=
  bit_set modemStatus OE_bit \/ bit_set modemStatus PE_bit \/
  bit_set modemStatus FE_bit \/ bit_set modemStatus FIFO_bit.

(** ** The availability invariant *)

(** The semaphore counts the buffered bytes. *)
Definition sem_counts_buffer (s : FT232) : Prop :=
  sem s = Z.of_nat (List.length (FTDIreadBuffer s)).

(** ** Reading the line signals *)

(** [FT232::PinoutSignal] and the flag set [PinoutSignals]. *)
Definition PinoutSignals := Z.
Definition NoSignal : PinoutSignals := 0x00.
Definition ReceivedDataSignal : PinoutSignals := 0x02.
Definition DataSetReadySignal : PinoutSignals := 0x10.
Definition RingIndicatorSignal : PinoutSignals := 0x20.
Definition ClearToSendSignal : PinoutSignals := 0x80.

(** [FT232::PinoutSignals FT232::pinoutSignals()] *)
Definition pinoutSignals {Hw : Type} (drv : Driver Hw) : M Hw PinoutSignals :=
  o <- isOpen ;;
  if negb o then pure NoSignal
  else
  lock ;;
  h <- gets ftdi ;;
  '(ret, modemStatus) <- call drv (FT_GetModemStatus h) ;;
  unlock ;;
  if negb (ret =? FT_OK) then
    setErrorString "an error occured while reading the modem status" ;;
    pure NoSignal
  else
  let retval := NoSignal in
  let retval := if truthy (Z.land modemStatus 0x0080)
                then Z.lor retval ReceivedDataSignal else retval in
  let retval := if truthy (Z.land modemStatus 0x0040)
                then Z.lor retval RingIndicatorSignal else retval in
  let retval := if truthy (Z.land modemStatus 0x0020)
                then Z.lor retval DataSetReadySignal else retval in
  let retval := if truthy (Z.land modemStatus 0x0010)
                then Z.lor retval ClearToSendSignal else retval in
  pure retval.

(** ** Sequences of receive events and reads *)

(** What happens to the receive buffer: the event handler drains the
    device, or the application reads. *)
Inductive BufferOp :=
| OpDrain
| OpRead (maxSize : Z).

(** The operations in order; the result is every byte the reads copied
    out, in order. *)
Fixpoint run_ops {Hw : Type} (drv : Driver Hw) (ops : list BufferOp)
    : M Hw (list byte) :=
  match ops with
  | [] => pure []
  | OpDrain :: rest => on_FTDIreceive drv ;; run_ops drv rest
  | OpRead maxSize :: rest =>
      '(_, data) <- readData maxSize ;;
      more <- run_ops drv rest ;;
      pure (data ++ more)
  end.

Definition read_size_ok (op : BufferOp) : Prop :=
  match op with
  | OpDrain => True
  | OpRead maxSize => 0 <= maxSize
  end.

(** ** Views of the call log *)

(** The handles handed out by the successful [FT_Open] calls of a log. *)
Definition opened_handle (e : Logged) : list FT_HANDLE :=
  match e with
  | @Call R c r =>
      match c in ftCall R0 return R0 -> list FT_HANDLE with
      | FT_Open _ => fun r => if fst r =? FT_OK then [snd r] else []
      | _ => fun _ => []
      end r
  end.
Definition opened_handles (log : list Logged) : list FT_HANDLE :=
  flat_map opened_handle log.

(** The handles passed to the [FT_Close] calls of a log. *)
Definition closed_handle (e : Logged) : list FT_HANDLE :=
  match e with
  | Call (FT_Close h) _ => [h]
  | Call _ _ => []
  end.
Definition closed_handles (log : list Logged) : list FT_HANDLE :=
  flat_map closed_handle log.

(** The device indices passed to the [FT_Open] calls of a log. *)
Definition open_index (e : Logged) : list Z :=
  match e with
  | Call (FT_Open deviceId) _ => [deviceId]
  | Call _ _ => []
  end.
Definition open_indices (log : list Logged) : list Z :=
  flat_map open_index log.

(** The version word answered by the [FT_GetLibraryVersion] calls. *)
Definition version_word (e : Logged) : list DWORD :=
  match e with
  | @Call R c r =>
      match c in ftCall R0 return R0 -> list DWORD with
      | FT_GetLibraryVersion => fun r => [snd r]
      | _ => fun _ => []
      end r
  end.
Definition version_words (log : list Logged) : list DWORD :=
  flat_map version_word log.

(** An open simulated session holding [buf] in its receive buffer. *)
Definition buffered_session (buf : list byte) : FT232 :=
  with_sem (Z.of_nat (List.length buf)) (with_FTDIreadBuffer buf Sim.opened).

(** The simulated driver with the event word of [FT_GetStatus] set to
    [ev]. *)
Definition driver_with_event (ev : DWORD) : Driver Sim.Hw :=
  fun R c =>
    match c as c0 in ftCall R0 return Sim.Hw -> R0 * Sim.Hw with
    | FT_GetStatus _ =>
        fun s => ((Sim.answer s,
                   (Z.of_nat (List.length (Sim.head_rx s)), 0, ev)), s)
    | c0 => Sim.driver _ c0
    end.

(** The simulated driver with [FT_SetBaudRate] answered by status 7
    (invalid baud rate). *)
Definition driver_rejecting_baud : Driver Sim.Hw :=
  fun R c =>
    match c as c0 in ftCall R0 return Sim.Hw -> R0 * Sim.Hw with
    | FT_SetBaudRate _ _ => fun s => (7, s)
    | c0 => Sim.driver _ c0
    end.

(** Unfolding of the primitives, for running a member function by
    simplification. *)
Ltac unfold_ops :=
  unfold bind, pure, lock, unlock, gets, modify, emit, call, isOpen,
    setOpenMode, setErrorString, flag_by_open, sem_tryAcquire, sem_release
    in *.

(** ** Basic facts *)

Section Facts.

Lemma with_ftdiMutex_twice (b b' : bool) (s : FT232) :
  with_ftdiMutex b (with_ftdiMutex b' s) = with_ftdiMutex b s.
Proof. reflexivity. Qed.

Lemma with_ftdiMutex_same (s : FT232) :
  ftdiMutex s = false -> with_ftdiMutex false s = s.
Proof. destruct s; simpl; intros ->; reflexivity. Qed.

(** A mask that covers a set bit sees it. *)
Lemma land_covering (x bit mask : Z) :
  Z.land mask bit = bit -> Z.land x bit <> 0 -> Z.land x mask <> 0.
Proof.
  intros Hcov Hbit Hmask. apply Hbit.
  rewrite <- Hcov, Z.land_assoc, Hmask. apply Z.land_0_l.
Qed.

Lemma purges_app (l1 l2 : list Logged) :
  purges (l1 ++ l2) = purges l1 ++ purges l2.
Proof. apply flat_map_app. Qed.

Lemma bauds_app (l1 l2 : list Logged) :
  bauds (l1 ++ l2) = bauds l1 ++ bauds l2.
Proof. apply flat_map_app. Qed.

Lemma chunks_read_app (l1 l2 : list Logged) :
  chunks_read (l1 ++ l2) = chunks_read l1 ++ chunks_read l2.
Proof. apply flat_map_app. Qed.

Lemma truthy_true (z : Z) : z <> 0 -> truthy z = true.
Proof. unfold truthy; intros H; apply Z.eqb_neq in H; now rewrite H. Qed.

End Facts.

(** ** Modem status handling *)

Section ModemStatus.
Context {Hw : Type} (drv : Driver Hw).

Lemma serious_mask (modemStatus : Z) :
  serious_error modemStatus <-> Z.land modemStatus 0x8E00 <> 0.
Proof.
  unfold serious_error, bit_set, OE_bit, PE_bit, FE_bit, FIFO_bit. split.
  - intros [H | [H | [H | H]]];
      (eapply land_covering; [ | exact H ]; reflexivity).
  - intros H.
    destruct (Z.eq_dec (Z.land modemStatus 0x0200) 0) as [E1 | ]; [ | tauto ].
    destruct (Z.eq_dec (Z.land modemStatus 0x0400) 0) as [E2 | ]; [ | tauto ].
    destruct (Z.eq_dec (Z.land modemStatus 0x0800) 0) as [E3 | ]; [ | tauto ].
    destruct (Z.eq_dec (Z.land modemStatus 0x8000) 0) as [E4 | ]; [ | tauto ].
    exfalso. apply H.
    change 0x8E00 with (Z.lor (Z.lor (Z.lor 0x0200 0x0400) 0x0800) 0x8000).
    rewrite !Z.land_lor_distr_r, E1, E2, E3, E4. reflexivity.
Qed.

(** C3. Whenever the modem status word read by [on_FTDImodemError] has
    an overrun, parity, framing or FIFO error bit set, the handler
    returns after purging the receive and the transmit buffer of the
    device: the purge is its only driver call after the status read, the
    object (with [errFlag]) is as it was, and no signal is emitted. *)
Theorem modem_serious_error_purges
    (w : World Hw) (modemStatus : Z) (hw1 : Hw) :
  ftdiMutex (self w) = false ->
  drv _ (FT_GetModemStatus (ftdi (self w))) (hw w)
    = ((FT_OK, modemStatus), hw1) ->
  serious_error modemStatus ->
  let purge := FT_Purge (ftdi (self w)) (Z.lor FT_PURGE_RX FT_PURGE_TX) in
  exists w',
    on_FTDImodemError drv w = Ok tt w' /\
    calls w' = calls w ++
               [Call (FT_GetModemStatus (ftdi (self w))) (FT_OK, modemStatus);
                Call purge (fst (drv _ purge hw1))] /\
    hw w' = snd (drv _ purge hw1) /\
    self w' = self w /\
    errFlag (self w') = errFlag (self w) /\
    emitted w' = emitted w.
Proof.
  intros Hfree Hms Hserious purge.
  apply serious_mask, truthy_true in Hserious.
  subst purge.
  unfold on_FTDImodemError; unfold_ops; cbn.
  rewrite Hfree; cbn. rewrite Hms; cbn. rewrite Hserious; cbn.
  destruct (drv _ _ hw1) as [st hw2]; cbn.
  rewrite !with_ftdiMutex_twice, with_ftdiMutex_same, <- app_assoc by assumption.
  eexists; repeat split; reflexivity.
Qed.

Lemma not_bit_set (x bit : Z) : ~ bit_set x bit -> Z.land x bit = 0.
Proof. unfold bit_set. destruct (Z.eq_dec (Z.land x bit) 0); tauto. Qed.

(** C4. Whenever the modem status word read by [on_FTDImodemError] has
    the overrun, parity, framing and FIFO error bits clear and the break
    interrupt bit set, the handler leaves [errFlag] containing
    [BreakConditionError] (in fact equal to it), and its status read is
    the only driver call: nothing is purged. *)
Theorem modem_break_sets_flag
    (w : World Hw) (modemStatus : Z) (hw1 : Hw) :
  ftdiMutex (self w) = false ->
  drv _ (FT_GetModemStatus (ftdi (self w))) (hw w)
    = ((FT_OK, modemStatus), hw1) ->
  ~ serious_error modemStatus ->
  bit_set modemStatus BI_bit ->
  exists w',
    on_FTDImodemError drv w = Ok tt w' /\
    Z.land (errFlag (self w')) BreakConditionError = BreakConditionError /\
    errFlag (self w') = BreakConditionError /\
    calls w' = calls w ++
               [Call (FT_GetModemStatus (ftdi (self w))) (FT_OK, modemStatus)] /\
    purges (calls w') = purges (calls w) /\
    hw w' = hw1 /\
    emitted w' = emitted w.
Proof.
  intros Hfree Hms Hnot Hbreak.
  assert (Hmask : Z.land modemStatus 0x8E00 = 0).
  { destruct (Z.eq_dec (Z.land modemStatus 0x8E00) 0) as [E | E]; [ exact E | ].
    apply serious_mask in E. contradiction. }
  unfold serious_error in Hnot.
  assert (H15 : Z.land modemStatus 0x8000 = 0) by (apply not_bit_set; tauto).
  assert (H11 : Z.land modemStatus 0x0800 = 0) by (apply not_bit_set; tauto).
  assert (H10 : Z.land modemStatus 0x0400 = 0) by (apply not_bit_set; tauto).
  assert (H9 : Z.land modemStatus 0x0200 = 0) by (apply not_bit_set; tauto).
  apply truthy_true in Hbreak. unfold BI_bit in Hbreak.
  unfold on_FTDImodemError; unfold_ops; cbn.
  rewrite Hfree; cbn. rewrite Hms; cbn.
  rewrite Hmask, H15, H11, H10, H9, Hbreak; cbn.
  eexists; split; [ reflexivity | ]; cbn.
  repeat split.
  fold (purges (calls w ++
          [Call (FT_GetModemStatus (ftdi (self w))) (FT_OK, modemStatus)])).
  rewrite purges_app. apply app_nil_r.
Qed.

End ModemStatus.

(** Status word 0b1000_0000_0000_0000 (FIFO error) on the simulated
    device: one purge of both buffers, [error()] still [NoError], nothing
    emitted. *)
Lemma modem_serious_error_purges_witness :
  exists w',
    on_FTDImodemError Sim.driver
      (start Sim.opened (Sim.device [] 0x8000 FT_OK)) = Ok tt w' /\
    purges (calls w') = [Z.lor FT_PURGE_RX FT_PURGE_TX] /\
    error w' = Ok NoError w' /\
    emitted w' = [].
Proof.
  destruct (modem_serious_error_purges Sim.driver
              (start Sim.opened (Sim.device [] 0x8000 FT_OK)) 0x8000
              (Sim.device [] 0x8000 FT_OK) eq_refl eq_refl)
    as (w' & Hrun & Hcalls & _ & Hself & _ & Hemit).
  - right; right; right. vm_compute. discriminate.
  - exists w'. repeat split.
    + exact Hrun.
    + rewrite Hcalls. reflexivity.
    + unfold error, gets. rewrite Hself. reflexivity.
    + rewrite Hemit. reflexivity.
Defined.

(** A break condition on the simulated device. *)
Lemma modem_break_sets_flag_witness :
  exists w',
    on_FTDImodemError Sim.driver
      (start Sim.opened (Sim.device [] 0x1000 FT_OK)) = Ok tt w' /\
    errFlag (self w') = BreakConditionError /\
    purges (calls w') = [].
Proof.
  destruct (modem_break_sets_flag Sim.driver
              (start Sim.opened (Sim.device [] 0x1000 FT_OK)) 0x1000
              (Sim.device [] 0x1000 FT_OK) eq_refl eq_refl)
    as (w' & Hrun & _ & Hflag & _ & Hpurges & _).
  - unfold serious_error, bit_set. vm_compute. intuition congruence.
  - vm_compute. discriminate.
  - exists w'. repeat split; [ exact Hrun | exact Hflag | ].
    rewrite Hpurges. reflexivity.
Defined.

(** ** The event handler *)

Section EventHandler.
Context {Hw : Type} (drv : Driver Hw).

(** C8. Whenever [FT_GetStatus] fails in [on_FTDIevent], the handler
    sets [errFlag] to exactly [NotOpenError] on a closed session and
    [ReadError] on an open one, emits [errorOccurred] and returns: the
    status query is its only driver call, so nothing is drained and no
    modem status is read, and buffer and semaphore are untouched. *)
Theorem event_status_failure
    (w : World Hw) (ret RxBytes TxBytes EventDWord : Z) (hw1 : Hw) :
  ftdiMutex (self w) = false ->
  drv _ (FT_GetStatus (ftdi (self w))) (hw w)
    = ((ret, (RxBytes, TxBytes, EventDWord)), hw1) ->
  ret <> FT_OK ->
  exists w',
    on_FTDIevent drv w = Ok tt w' /\
    errFlag (self w') =
      (if openMode (self w) =? NotOpen then NotOpenError else ReadError) /\
    emitted w' = emitted w ++ [errorOccurred] /\
    calls w' = calls w ++
               [Call (FT_GetStatus (ftdi (self w)))
                     (ret, (RxBytes, TxBytes, EventDWord))] /\
    hw w' = hw1 /\
    FTDIreadBuffer (self w') = FTDIreadBuffer (self w) /\
    sem (self w') = sem (self w) /\
    openMode (self w') = openMode (self w).
Proof.
  intros Hfree Hst Hret. apply Z.eqb_neq in Hret.
  unfold on_FTDIevent; unfold_ops; cbn.
  rewrite Hfree; cbn. rewrite Hst; cbn. rewrite Hret; cbn.
  destruct (openMode (self w) =? NotOpen); cbn;
    eexists; repeat split.
Qed.

End EventHandler.

(** A failing status query on an open and on a closed simulated session. *)
Lemma event_status_failure_witness :
  (exists w',
     on_FTDIevent Sim.driver (start Sim.opened (Sim.device [] 0 FT_IO_ERROR))
       = Ok tt w' /\
     errFlag (self w') = ReadError /\ emitted w' = [errorOccurred]) /\
  (exists w',
     on_FTDIevent Sim.driver (start Sim.fresh (Sim.device [] 0 FT_IO_ERROR))
       = Ok tt w' /\
     errFlag (self w') = NotOpenError /\ emitted w' = [errorOccurred]).
Proof.
  split.
  - destruct (event_status_failure Sim.driver
                (start Sim.opened (Sim.device [] 0 FT_IO_ERROR))
                FT_IO_ERROR 0 0 FT_EVENT_RXCHAR
                (Sim.device [] 0 FT_IO_ERROR) eq_refl eq_refl)
      as (w' & Hrun & Hflag & Hemit & _).
    + discriminate.
    + exists w'. repeat split; assumption.
  - destruct (event_status_failure Sim.driver
                (start Sim.fresh (Sim.device [] 0 FT_IO_ERROR))
                FT_IO_ERROR 0 0 FT_EVENT_RXCHAR
                (Sim.device [] 0 FT_IO_ERROR) eq_refl eq_refl)
      as (w' & Hrun & Hflag & Hemit & _).
    + discriminate.
    + exists w'. repeat split; assumption.
Defined.

(** ** Writing *)

Section Writing.
Context {Hw : Type} (drv : Driver Hw).

(** On failure of [FT_Write], [writeData] returns -1 and sets the error
    string. *)
Lemma writeData_failure
    (w : World Hw) (data : list byte) (ret n : Z) (hw1 : Hw) :
  ftdiMutex (self w) = false ->
  drv _ (FT_Write (ftdi (self w)) data
           (to_uint32 (Z.of_nat (List.length data)))) (hw w)
    = ((ret, n), hw1) ->
  ret <> FT_OK ->
  exists w',
    writeData drv data w = Ok (-1) w' /\
    errorString (self w') = "an error occured while writing to the port".
Proof.
  intros Hfree Hwr Hret. apply Z.eqb_neq in Hret.
  unfold writeData; unfold_ops; cbn.
  rewrite Hfree; cbn. rewrite Hwr; cbn. rewrite Hret; cbn.
  eexists; split; reflexivity.
Qed.

(** C5. What [writeData] returns when [FT_Write] succeeds: the status
    [FT_OK], that is 0, whatever byte count the driver reported; the
    object is left as it was. *)
Theorem writeData_success_returns_status
    (w : World Hw) (data : list byte) (bytesWritten : Z) (hw1 : Hw) :
  ftdiMutex (self w) = false ->
  drv _ (FT_Write (ftdi (self w)) data
           (to_uint32 (Z.of_nat (List.length data)))) (hw w)
    = ((FT_OK, bytesWritten), hw1) ->
  exists w',
    writeData drv data w = Ok 0 w' /\
    self w' = self w /\
    calls w' = calls w ++
               [Call (FT_Write (ftdi (self w)) data
                        (to_uint32 (Z.of_nat (List.length data))))
                     (FT_OK, bytesWritten)].
Proof.
  intros Hfree Hwr.
  unfold writeData; unfold_ops; cbn.
  rewrite Hfree; cbn. rewrite Hwr; cbn.
  rewrite with_ftdiMutex_twice, with_ftdiMutex_same by assumption.
  eexists; repeat split.
Qed.

End Writing.

(** Three bytes written to the simulated device: the driver reports 3,
    [writeData] returns 0. *)
Lemma writeData_success_returns_status_witness :
  exists w',
    writeData Sim.driver [x01; x02; x03]
      (start Sim.opened (Sim.device [] 0 FT_OK)) = Ok 0 w' /\
    calls w' = [Call (FT_Write 0x7000 [x01; x02; x03] 3) (FT_OK, 3)].
Proof.
  destruct (writeData_success_returns_status Sim.driver
              (start Sim.opened (Sim.device [] 0 FT_OK)) [x01; x02; x03] 3
              (Sim.device [] 0 FT_OK) eq_refl eq_refl)
    as (w' & Hrun & _ & Hcalls).
  exists w'. split; [ exact Hrun | exact Hcalls ].
Defined.

(** ** Setters on a closed session *)

Section ClosedSetters.
Context {Hw : Type} (drv : Driver Hw).

(** [setDataTerminalReady] and [setRequestToSend] test [isOpen] first. *)
Lemma setDataTerminalReady_closed (w : World Hw) (set : bool) :
  openMode (self w) = NotOpen ->
  setDataTerminalReady drv set w = Ok false w.
Proof.
  intros Hclosed. unfold setDataTerminalReady; unfold_ops; cbn.
  rewrite Hclosed; reflexivity.
Qed.

Lemma setRequestToSend_closed (w : World Hw) (set : bool) :
  openMode (self w) = NotOpen ->
  setRequestToSend drv set w = Ok false w.
Proof.
  intros Hclosed. unfold setRequestToSend; unfold_ops; cbn.
  rewrite Hclosed; reflexivity.
Qed.

(** C6. On a closed session [setDataTerminalReady] and
    [setRequestToSend] return false and leave the world as it was, but
    [setLineProperty] and [setFlowControl] have no such test: each
    passes the stale handle to the driver in one logged call and returns
    true exactly when that call answers [FT_OK]; [setLineProperty] has
    stored the new line property by then. *)
Theorem closed_session_setters
    (w : World Hw) (set : bool) (line : LineProperty) (flow : FlowControl) :
  openMode (self w) = NotOpen ->
  ftdiMutex (self w) = false ->
  setDataTerminalReady drv set w = Ok false w /\
  setRequestToSend drv set w = Ok false w /\
  (exists c st w',
     setLineProperty drv line w = Ok (st =? FT_OK) w' /\
     c = FT_SetDataCharacteristics (ftdi (self w)) FT_BITS_8
           (snd (line_parity_sbit line)) (fst (line_parity_sbit line)) /\
     st = fst (drv _ c (hw w)) /\
     calls w' = calls w ++ [Call c st] /\
     FTDIlineProperty (self w') = line) /\
  (exists c st w',
     setFlowControl drv flow w = Ok (st =? FT_OK) w' /\
     c = FT_SetFlowControl (ftdi (self w)) (flow_code flow) 0x11 0x13 /\
     st = fst (drv _ c (hw w)) /\
     calls w' = calls w ++ [Call c st]).
Proof.
  intros Hclosed Hfree.
  split; [ apply setDataTerminalReady_closed; assumption | ].
  split; [ apply setRequestToSend_closed; assumption | ].
  split.
  - unfold setLineProperty; unfold_ops.
    destruct (line_parity_sbit line) as [parity sbit]; cbn.
    rewrite Hfree; cbn.
    destruct (drv _ _ (hw w)) as [st hw1] eqn:Hcall; cbn.
    destruct (st =? FT_OK) eqn:Hst; cbn;
      eexists; exists st; eexists; rewrite Hst;
      (split; [ reflexivity | ]); cbn;
      rewrite Hcall; cbn; repeat split.
  - unfold setFlowControl; unfold_ops; cbn.
    rewrite Hfree; cbn.
    destruct (drv _ _ (hw w)) as [st hw1] eqn:Hcall; cbn.
    destruct (st =? FT_OK) eqn:Hst; cbn;
      eexists; exists st; eexists; rewrite Hst;
      (split; [ reflexivity | ]); cbn;
      rewrite Hcall; cbn; repeat split.
Qed.

End ClosedSetters.

(** [setLineProperty(SERIAL_8E2)] and [setFlowControl(HardwareControl)] on
    a never-opened object whose driver rejects the handle (status 1): both
    calls reach the driver. *)
Lemma closed_session_setters_witness :
  (exists w',
     setLineProperty Sim.driver SERIAL_8E2 (start Sim.fresh (Sim.device [] 0 1))
       = Ok false w' /\
     calls w' = [Call (FT_SetDataCharacteristics 0 8 2 2) 1] /\
     FTDIlineProperty (self w') = SERIAL_8E2) /\
  (exists w',
     setFlowControl Sim.driver HardwareControl
       (start Sim.fresh (Sim.device [] 0 1)) = Ok false w' /\
     calls w' = [Call (FT_SetFlowControl 0 0x0100 0x11 0x13) 1]).
Proof.
  destruct (closed_session_setters Sim.driver
              (start Sim.fresh (Sim.device [] 0 1)) true SERIAL_8E2
              HardwareControl eq_refl eq_refl)
    as (_ & _ & (c & st & w' & Hrun & Hc & Hst & Hcalls & Hline)
            & (c2 & st2 & w2 & Hrun2 & Hc2 & Hst2 & Hcalls2)).
  split.
  - exists w'. subst c. cbn in Hst. subst st. repeat split; assumption.
  - exists w2. subst c2. cbn in Hst2. subst st2. split; assumption.
Defined.

(** ** Open, close and the baud rate *)

Section Lifecycle.
Context {Hw : Type} (drv : Driver Hw).

Lemma to_uint32_small (b : Z) : 0 <= b <= INT32_MAX -> to_uint32 b = b.
Proof.
  unfold to_uint32, INT32_MAX. intros H. apply Z.mod_small. lia.
Qed.

Lemma to_int32_to_uint32 (b : Z) :
  INT32_MIN <= b <= INT32_MAX -> to_int32 (to_uint32 b) = b.
Proof.
  unfold to_int32, to_uint32, INT32_MIN, INT32_MAX. intros H.
  rewrite Z.add_mod_idemp_l by lia.
  rewrite Z.mod_small by lia. lia.
Qed.

(** [close] on a free mutex: one [FT_Close] on the stored handle, the
    session closed, [aboutToClose] emitted, nothing else changed. *)
Lemma close_spec (w : World Hw) :
  ftdiMutex (self w) = false ->
  close drv w =
    Ok tt {| self := with_openMode NotOpen (self w);
             hw := snd (drv _ (FT_Close (ftdi (self w))) (hw w));
             calls := calls w ++
                      [Call (FT_Close (ftdi (self w)))
                            (fst (drv _ (FT_Close (ftdi (self w))) (hw w)))];
             emitted := emitted w ++ [aboutToClose] |}.
Proof.
  intros Hfree. unfold close; unfold_ops; cbn.
  rewrite Hfree; cbn.
  destruct (drv _ _ (hw w)) as [st hw1]; cbn.
  change (with_openMode NotOpen
            (with_ftdiMutex false (with_ftdiMutex true (self w))))
    with (with_openMode NotOpen (with_ftdiMutex false (self w))).
  rewrite with_ftdiMutex_same by assumption. reflexivity.
Qed.

(** C9. From any session whose mutex is free, [close] returns, and a
    second [close] right after it returns too, leaving the whole object
    (open mode, error flags, error string, buffer, semaphore,
    configuration) equal to what the first call left; the second call
    only repeats the [FT_Close] driver call and the [aboutToClose]
    signal, and neither call touches [errFlag] or the error string. *)
Theorem close_idempotent (w : World Hw) :
  ftdiMutex (self w) = false ->
  exists w1 w2,
    close drv w = Ok tt w1 /\
    close drv w1 = Ok tt w2 /\
    self w2 = self w1 /\
    openMode (self w1) = NotOpen /\
    errFlag (self w1) = errFlag (self w) /\
    errorString (self w1) = errorString (self w) /\
    emitted w2 = emitted w1 ++ [aboutToClose] /\
    calls w2 = calls w1 ++
               [Call (FT_Close (ftdi (self w)))
                     (fst (drv _ (FT_Close (ftdi (self w))) (hw w1)))].
Proof.
  intros Hfree.
  eexists; eexists.
  split; [ apply close_spec; assumption | ].
  split; [ apply close_spec; cbn; assumption | ].
  cbn. repeat split.
Qed.

(** C10. On an open session, when [FT_SetBaudRate] fails,
    [setBaudRate(b)] returns false after calling [close]: the driver saw
    the baud-rate call, carrying the value already stored in
    [FTDIbaudRate], and then [FT_Close]; the session is closed,
    [aboutToClose] is the only signal, and [baudRate()] reads [b]. *)
Theorem setBaudRate_failure_closes
    (w : World Hw) (b : Z) (st : FT_STATUS) (hw1 : Hw) :
  ftdiMutex (self w) = false ->
  openMode (self w) <> NotOpen ->
  INT32_MIN <= b <= INT32_MAX ->
  drv _ (FT_SetBaudRate (ftdi (self w)) (to_uint32 b)) (hw w) = (st, hw1) ->
  st <> FT_OK ->
  exists w',
    setBaudRate drv b w = Ok false w' /\
    openMode (self w') = NotOpen /\
    FTDIbaudRate (self w') = to_uint32 b /\
    baudRate w' = Ok b w' /\
    calls w' = calls w ++
               [Call (FT_SetBaudRate (ftdi (self w)) (to_uint32 b)) st;
                Call (FT_Close (ftdi (self w)))
                     (fst (drv _ (FT_Close (ftdi (self w))) hw1))] /\
    emitted w' = emitted w ++ [aboutToClose].
Proof.
  intros Hfree Hopen Hrange Hcall Hst.
  apply Z.eqb_neq in Hopen. apply Z.eqb_neq in Hst.
  unfold setBaudRate; unfold_ops; cbn.
  rewrite Hopen; cbn. rewrite Hfree; cbn. rewrite Hcall; cbn.
  rewrite Hst; cbn.
  rewrite close_spec by reflexivity. cbn.
  eexists; split; [ reflexivity | ]; cbn.
  repeat split.
  - unfold baudRate, gets; cbn.
    rewrite to_int32_to_uint32 by assumption. reflexivity.
  - rewrite <- app_assoc. reflexivity.
Qed.

End Lifecycle.

(** Closing the simulated open session twice. *)
Lemma close_idempotent_witness :
  exists w1 w2,
    close Sim.driver (start Sim.opened (Sim.device [] 0 FT_OK)) = Ok tt w1 /\
    close Sim.driver w1 = Ok tt w2 /\
    self w2 = self w1 /\
    openMode (self w1) = NotOpen.
Proof.
  destruct (close_idempotent Sim.driver
              (start Sim.opened (Sim.device [] 0 FT_OK)) eq_refl)
    as (w1 & w2 & H1 & H2 & Hsame & Hclosed & _).
  exists w1, w2. repeat split; assumption.
Defined.

(** [setBaudRate(9600)] on an open simulated session whose driver answers
    [FT_IO_ERROR]. *)
Lemma setBaudRate_failure_closes_witness :
  exists w',
    setBaudRate Sim.driver 9600
      (start Sim.opened (Sim.device [] 0 FT_IO_ERROR)) = Ok false w' /\
    openMode (self w') = NotOpen /\
    FTDIbaudRate (self w') = 9600 /\
    calls w' = [Call (FT_SetBaudRate 0x7000 9600) FT_IO_ERROR;
                Call (FT_Close 0x7000) FT_IO_ERROR].
Proof.
  destruct (setBaudRate_failure_closes Sim.driver
              (start Sim.opened (Sim.device [] 0 FT_IO_ERROR)) 9600
              FT_IO_ERROR (Sim.device [] 0 FT_IO_ERROR) eq_refl)
    as (w' & Hrun & Hclosed & Hbaud & _ & Hcalls & _).
  - vm_compute. discriminate.
  - vm_compute. split; discriminate.
  - reflexivity.
  - discriminate.
  - exists w'. repeat split; assumption.
Defined.

Section OpenBaud.
Context {Hw : Type} (drv : Driver Hw).

(** A successful [open] sets the baud rate exactly once, to the stored
    [FTDIbaudRate]. *)
Lemma open_applies_stored_baud (w w2 : World Hw) (mode : OpenMode) :
  open drv mode w = Ok true w2 ->
  exists new, calls w2 = calls w ++ new /\ bauds new = [FTDIbaudRate (self w)].
Proof.
  intros H. unfold open in H; unfold_ops; cbn in H.
  repeat
    (match type of H with
     | context [drv ?R ?c ?h] =>
         let r := fresh "r" in
         destruct (drv R c h) as [r ?]; try destruct r as [? ?]
     | context [if ?b then _ else _] => destruct b
     | context [close drv ?x] => destruct (close drv x)
     end; cbn in H; try discriminate H).
  all: injection H as <-; cbn.
  all: repeat rewrite <- app_assoc; cbn.
  all: eexists; split; reflexivity.
Qed.

(** C7. On a closed session [setBaudRate(b)], for a baud rate [b] in
    the non-negative range of [qint32], returns true without a driver
    call and stores [b] in [FTDIbaudRate]; every [open] that then
    succeeds sets the baud rate of the device exactly once, to [b]. *)
Theorem setBaudRate_closed_then_open (w : World Hw) (b : Z) :
  openMode (self w) = NotOpen ->
  0 <= b <= INT32_MAX ->
  exists w1,
    setBaudRate drv b w = Ok true w1 /\
    FTDIbaudRate (self w1) = b /\
    calls w1 = calls w /\
    hw w1 = hw w /\
    emitted w1 = emitted w /\
    forall mode w2,
      open drv mode w1 = Ok true w2 ->
      exists new, calls w2 = calls w1 ++ new /\ bauds new = [b].
Proof.
  intros Hclosed Hrange.
  unfold setBaudRate; unfold_ops; cbn.
  rewrite Hclosed; cbn.
  eexists; split; [ reflexivity | ]; cbn.
  rewrite to_uint32_small by assumption.
  repeat split.
  intros mode w2 Hopen.
  apply open_applies_stored_baud in Hopen. exact Hopen.
Qed.

End OpenBaud.

(** [setBaudRate(9600)] on the fresh simulated object, then a successful
    [open]: the device is set to 9600, not to 115200. *)
Lemma setBaudRate_closed_then_open_witness :
  exists w1 w2,
    setBaudRate Sim.driver 9600 (start Sim.fresh (Sim.device [] 0 FT_OK))
      = Ok true w1 /\
    open Sim.driver ReadWrite w1 = Ok true w2 /\
    bauds (calls w2) = [9600].
Proof.
  destruct (setBaudRate_closed_then_open Sim.driver
              (start Sim.fresh (Sim.device [] 0 FT_OK)) 9600 eq_refl)
    as (w1 & Hset & _ & Hcalls & _ & _ & Hopen).
  - vm_compute. split; discriminate.
  - injection Hset as <-.
    assert (E : exists w2,
               open Sim.driver ReadWrite
                 {| self := with_FTDIbaudRate (to_uint32 9600) Sim.fresh;
                    hw := Sim.device [] 0 FT_OK;
                    calls := []; emitted := [] |} = Ok true w2)
      by (vm_compute; eexists; reflexivity).
    destruct E as [w2 E].
    destruct (Hopen ReadWrite w2 E) as (new & Hnew & Hbauds).
    eexists; exists w2. split; [ reflexivity | ].
    split; [ exact E | ].
    rewrite Hnew. exact Hbauds.
Defined.

(** ** The receive pipeline *)

Section Receive.
Context {Hw : Type} (drv : Driver Hw).

(** C2. [readData(0)] returns 0, and [readData(k)] with [0 <= k] on an
    empty buffer returns 0; either way nothing is copied, the world
    (buffer and semaphore included) is exactly as before, and the only
    semaphore operation in [readData] is the non-waiting
    [tryAcquire]. *)
Theorem readData_nothing_to_read (w : World Hw) :
  readData 0 w = Ok (0, []) w /\
  forall k, 0 <= k -> FTDIreadBuffer (self w) = [] ->
            readData k w = Ok (0, []) w.
Proof.
  split.
  - unfold readData; unfold_ops; cbn.
    rewrite Z.min_l by lia. reflexivity.
  - intros k Hk Hempty.
    unfold readData; unfold_ops; cbn.
    rewrite Hempty; cbn. rewrite Z.min_r by lia. reflexivity.
Qed.

(** A read asking for at least the buffered amount takes the whole
    buffer, front to back. *)
Lemma readData_takes_all (w : World Hw) (maxSize : Z) :
  sem_counts_buffer (self w) ->
  Z.of_nat (List.length (FTDIreadBuffer (self w))) <= maxSize ->
  exists w',
    readData maxSize w
      = Ok (Z.of_nat (List.length (FTDIreadBuffer (self w))),
            FTDIreadBuffer (self w)) w' /\
    FTDIreadBuffer (self w') = [] /\
    sem (self w') = 0.
Proof.
  unfold sem_counts_buffer. intros Hsem Hmax.
  unfold readData; unfold_ops; cbn.
  rewrite Z.min_r by lia.
  destruct (Z.eqb_spec (Z.of_nat (List.length (FTDIreadBuffer (self w)))) 0)
    as [E | N].
  - assert (Hnil : FTDIreadBuffer (self w) = [])
      by (apply length_zero_iff_nil; lia).
    exists w. rewrite E, Hnil. repeat split. lia.
  - destruct (Z.ltb_spec (Z.of_nat (List.length (FTDIreadBuffer (self w)))) 0)
      as [E | _]; [ lia | ].
    rewrite Hsem, Z.leb_refl. cbn.
    rewrite Nat2Z.id, skipn_all, firstn_all, Z.sub_diag.
    eexists; repeat split.
Qed.

(** One receive event: it returns, frees the mutex again, and appends
    to the back of the buffer exactly the bytes of the [FT_Read] it
    logged as successful (if any), releasing as many semaphore units. *)
Lemma on_FTDIreceive_step (w : World Hw) :
  ftdiMutex (self w) = false ->
  exists w1 new,
    on_FTDIreceive drv w = Ok tt w1 /\
    calls w1 = calls w ++ new /\
    FTDIreadBuffer (self w1)
      = FTDIreadBuffer (self w) ++ List.concat (chunks_read new) /\
    sem (self w1)
      = sem (self w) + Z.of_nat (List.length (List.concat (chunks_read new))) /\
    ftdiMutex (self w1) = false.
Proof.
  intros Hfree.
  unfold on_FTDIreceive; unfold_ops; cbn.
  rewrite Hfree; cbn.
  destruct (drv _ _ (hw w)) as [[ret avail] hw1]; cbn.
  destruct (0 <? avail); cbn.
  - destruct (drv _ _ hw1) as [[ret2 buff] hw2]; cbn.
    destruct (Z.eqb_spec ret2 FT_IO_ERROR) as [E4 | N4]; cbn.
    + subst ret2.
      destruct (openMode (self w) =? NotOpen); cbn;
        do 2 eexists; (split; [ reflexivity | ]); cbn;
        rewrite <- app_assoc; (split; [ reflexivity | ]); cbn;
        rewrite app_nil_r, Z.add_0_r; repeat split.
    + destruct (Z.eqb_spec ret2 FT_OK) as [E0 | N0]; cbn.
      * subst ret2.
        destruct (Z.ltb_spec (Z.of_nat (List.length buff)) 0) as [E | _];
          [ lia | ]; cbn.
        do 2 eexists; (split; [ reflexivity | ]); cbn.
        rewrite <- app_assoc; (split; [ reflexivity | ]); cbn.
        rewrite app_nil_r. repeat split.
      * apply Z.eqb_neq in N0.
        destruct (openMode (self w) =? NotOpen); cbn;
          do 2 eexists; (split; [ reflexivity | ]); cbn;
          rewrite <- app_assoc; (split; [ reflexivity | ]); cbn;
          rewrite N0; cbn; rewrite app_nil_r, Z.add_0_r; repeat split.
  - do 2 eexists; (split; [ reflexivity | ]); cbn.
    split; [ reflexivity | ]; cbn.
    rewrite app_nil_r, Z.add_0_r; repeat split.
Qed.

(** Any number of receive events in a row: the buffer grows at the
    back by the successfully read chunks, in the order of the reads. *)
Lemma drains_spec (n : nat) (w : World Hw) :
  ftdiMutex (self w) = false ->
  exists w1 new,
    drains drv n w = Ok tt w1 /\
    calls w1 = calls w ++ new /\
    FTDIreadBuffer (self w1)
      = FTDIreadBuffer (self w) ++ List.concat (chunks_read new) /\
    sem (self w1)
      = sem (self w) + Z.of_nat (List.length (List.concat (chunks_read new))) /\
    ftdiMutex (self w1) = false.
Proof.
  revert w. induction n as [| n IH]; intros w Hfree.
  - exists w, []. cbn. rewrite !app_nil_r, Z.add_0_r. repeat split.
    assumption.
  - destruct (on_FTDIreceive_step w Hfree)
      as (w1 & new1 & Hrun1 & Hcalls1 & Hbuf1 & Hsem1 & Hfree1).
    destruct (IH w1 Hfree1)
      as (w2 & new2 & Hrun2 & Hcalls2 & Hbuf2 & Hsem2 & Hfree2).
    exists w2, (new1 ++ new2).
    split.
    { cbn [drains]. unfold bind. rewrite Hrun1. exact Hrun2. }
    rewrite chunks_read_app, List.concat_app, List.length_app, Nat2Z.inj_add.
    rewrite Hcalls2, Hcalls1, Hbuf2, Hbuf1, Hsem2, Hsem1.
    rewrite !app_assoc. repeat split; [ lia | assumption ].
Qed.

(** C1. From a session with an empty buffer and a semaphore of 0 (and
    a free mutex), any number of receive events return, and after them
    every read asking for at least as many bytes as the successful
    [FT_Read] calls of those events delivered returns exactly those
    chunks, concatenated in the order they were read from the device,
    and leaves the buffer empty. *)
Theorem fifo_read_after_drains (w : World Hw) (n : nat) :
  ftdiMutex (self w) = false ->
  FTDIreadBuffer (self w) = [] ->
  sem (self w) = 0 ->
  exists w1 new,
    drains drv n w = Ok tt w1 /\
    calls w1 = calls w ++ new /\
    FTDIreadBuffer (self w1) = List.concat (chunks_read new) /\
    forall maxSize,
      Z.of_nat (List.length (List.concat (chunks_read new))) <= maxSize ->
      exists w2,
        readData maxSize w1
          = Ok (Z.of_nat (List.length (List.concat (chunks_read new))),
                List.concat (chunks_read new)) w2 /\
        FTDIreadBuffer (self w2) = [] /\
        sem (self w2) = 0.
Proof.
  intros Hfree Hempty Hsem.
  destruct (drains_spec n w Hfree)
    as (w1 & new & Hrun & Hcalls & Hbuf & Hsem1 & _).
  rewrite Hempty in Hbuf. rewrite Hsem in Hsem1. cbn in Hbuf, Hsem1.
  exists w1, new. repeat split; try assumption.
  intros maxSize Hmax.
  rewrite <- Hbuf.
  apply readData_takes_all.
  - unfold sem_counts_buffer. rewrite Hsem1, Hbuf. reflexivity.
  - rewrite Hbuf. exact Hmax.
Qed.

End Receive.

(** Two chunks arriving over three receive events on the simulated
    device, then a read of up to 10 bytes. *)
Lemma fifo_read_after_drains_witness :
  exists w1 w2,
    drains Sim.driver 3
      (start Sim.opened (Sim.device [[x01; x02; x03]; [x04; x05]] 0 FT_OK))
      = Ok tt w1 /\
    chunks_read (calls w1) = [[x01; x02; x03]; [x04; x05]] /\
    readData 10 w1 = Ok (5, [x01; x02; x03; x04; x05]) w2.
Proof.
  destruct (fifo_read_after_drains Sim.driver
              (start Sim.opened
                 (Sim.device [[x01; x02; x03]; [x04; x05]] 0 FT_OK))
              3 eq_refl eq_refl eq_refl)
    as (w1 & new & Hrun & Hcalls & _ & Hread).
  vm_compute in Hrun. injection Hrun as <-.
  cbn in Hcalls. subst new.
  destruct (Hread 10) as (w2 & Hread10 & _).
  - vm_compute. discriminate.
  - eexists; exists w2. split; [ vm_compute; reflexivity | ].
    split; [ vm_compute; reflexivity | ]. exact Hread10.
Defined.

(** [readData(0)] on a non-empty buffer and [readData(5)] on an empty
    one. *)
Lemma readData_nothing_to_read_witness :
  readData 0 (start (with_sem 2 (with_FTDIreadBuffer [x01; x02] Sim.opened))
                    (Sim.device [] 0 FT_OK))
    = Ok (0, [])
         (start (with_sem 2 (with_FTDIreadBuffer [x01; x02] Sim.opened))
                (Sim.device [] 0 FT_OK)) /\
  readData 5 (start Sim.opened (Sim.device [] 0 FT_OK))
    = Ok (0, []) (start Sim.opened (Sim.device [] 0 FT_OK)).
Proof.
  split.
  - exact (proj1 (readData_nothing_to_read
                    (start (with_sem 2
                              (with_FTDIreadBuffer [x01; x02] Sim.opened))
                           (Sim.device [] 0 FT_OK)))).
  - apply (proj2 (readData_nothing_to_read
                    (start Sim.opened (Sim.device [] 0 FT_OK))));
      [ lia | reflexivity ].
Defined.

(** ** Reading from the buffer *)

Section ReadSide.
Context {Hw : Type}.

(** What [readData] does on a non-negative request, with [n] the number
    of bytes it settles on. *)
Lemma readData_cases (w : World Hw) (maxSize : Z) :
  0 <= maxSize ->
  let buf := FTDIreadBuffer (self w) in
  let n := Z.min maxSize (Z.of_nat (List.length buf)) in
  (readData maxSize w = Ok (0, []) w /\ (n = 0 \/ sem (self w) < n)) \/
  (0 < n <= sem (self w) /\
   readData maxSize w
     = Ok (n, firstn (Z.to_nat n) buf)
          {| self := with_FTDIreadBuffer (skipn (Z.to_nat n) buf)
                       (with_sem (sem (self w) - n) (self w));
             hw := hw w; calls := calls w; emitted := emitted w |}).
Proof.
  intros Hmax buf n. subst buf.
  unfold readData; unfold_ops; cbn. fold n.
  assert (Hn : 0 <= n) by (subst n; lia).
  destruct (Z.eqb_spec n 0) as [E | N].
  - left. split; [ reflexivity | left; exact E ].
  - destruct (Z.ltb_spec n 0) as [L | _]; [ lia | ].
    destruct (Z.leb_spec n (sem (self w))) as [L | G]; cbn.
    + right. split; [ lia | reflexivity ].
    + left. split; [ reflexivity | right; exact G ].
Qed.

(** A read as one step of a longer run. *)
Lemma readData_step (w : World Hw) (maxSize : Z) :
  0 <= maxSize ->
  exists n data w',
    readData maxSize w = Ok (n, data) w' /\
    data ++ FTDIreadBuffer (self w') = FTDIreadBuffer (self w) /\
    calls w' = calls w /\
    ftdiMutex (self w') = ftdiMutex (self w) /\
    (sem_counts_buffer (self w) -> sem_counts_buffer (self w')).
Proof.
  intros Hmax.
  destruct (readData_cases w maxSize Hmax) as [[Hrun _] | [Hn Hrun]].
  - exists 0, [], w. repeat split; auto.
  - do 3 eexists. split; [ exact Hrun | ]. cbn.
    rewrite firstn_skipn. repeat split.
    unfold sem_counts_buffer; cbn. intros Hinv.
    rewrite length_skipn. lia.
Qed.

(** X1. A read with a non-negative request returns, and hands out a
    front piece of the buffer: the count returned is the length of the
    bytes copied and is at most the request, the bytes copied followed by
    the bytes left are the old buffer, the semaphore drops by the count,
    and neither the driver nor any signal is involved. *)
Theorem readData_conserves_bytes (w : World Hw) (maxSize : Z) :
  0 <= maxSize ->
  exists n data w',
    readData maxSize w = Ok (n, data) w' /\
    n = Z.of_nat (List.length data) /\
    n <= maxSize /\
    data ++ FTDIreadBuffer (self w') = FTDIreadBuffer (self w) /\
    sem (self w') = sem (self w) - n /\
    calls w' = calls w /\ emitted w' = emitted w /\ hw w' = hw w /\
    errFlag (self w') = errFlag (self w) /\
    ftdiMutex (self w') = ftdiMutex (self w).
Proof.
  intros Hmax.
  destruct (readData_cases w maxSize Hmax) as [[Hrun _] | [Hn Hrun]].
  - exists 0, [], w. repeat split; try assumption; try lia.
  - do 3 eexists. split; [ exact Hrun | ]. cbn.
    rewrite length_firstn, firstn_skipn.
    repeat split; lia.
Qed.

(** A read under the availability invariant. *)
Lemma readData_invariant_step (w : World Hw) (maxSize : Z) :
  sem_counts_buffer (self w) ->
  0 <= maxSize ->
  let n := Z.min maxSize (Z.of_nat (List.length (FTDIreadBuffer (self w)))) in
  exists w',
    readData maxSize w
      = Ok (n, firstn (Z.to_nat n) (FTDIreadBuffer (self w))) w' /\
    FTDIreadBuffer (self w') = skipn (Z.to_nat n) (FTDIreadBuffer (self w)) /\
    sem_counts_buffer (self w').
Proof.
  intros Hinv Hmax n. unfold sem_counts_buffer in *.
  destruct (readData_cases w maxSize Hmax) as [[Hrun Hn] | [Hn Hrun]];
    fold n in Hn, Hrun.
  - assert (E : n = 0) by (subst n; lia).
    exists w. rewrite E. cbn. repeat split; assumption.
  - eexists. split; [ exact Hrun | ]. cbn. split; [ reflexivity | ].
    rewrite length_skipn. lia.
Qed.

(** X2. While the semaphore counts the buffered bytes, a read never
    comes back short: it returns exactly min(request, buffered) bytes,
    the first ones of the buffer, keeps the rest in order, and the
    semaphore still counts the buffer afterwards. *)
Theorem readData_exact (w : World Hw) (maxSize : Z) :
  sem_counts_buffer (self w) ->
  0 <= maxSize ->
  exists w',
    readData maxSize w
      = Ok (Z.min maxSize (Z.of_nat (List.length (FTDIreadBuffer (self w)))),
            firstn (Z.to_nat maxSize) (FTDIreadBuffer (self w))) w' /\
    FTDIreadBuffer (self w')
      = skipn (Z.to_nat maxSize) (FTDIreadBuffer (self w)) /\
    sem_counts_buffer (self w').
Proof.
  intros Hinv Hmax.
  destruct (readData_invariant_step w maxSize Hinv Hmax)
    as (w' & Hrun & Hbuf & Hinv').
  cbv zeta in Hrun, Hbuf.
  set (buf := FTDIreadBuffer (self w)) in *.
  exists w'.
  destruct (Z.le_ge_cases maxSize (Z.of_nat (List.length buf))) as [L | G].
  - rewrite Z.min_l in * by assumption. repeat split; assumption.
  - rewrite Z.min_r in * by lia.
    rewrite Nat2Z.id in Hrun, Hbuf.
    rewrite firstn_all in Hrun. rewrite skipn_all in Hbuf.
    rewrite firstn_all2, skipn_all2 by lia.
    repeat split; assumption.
Qed.

(** X3. Reading in two steps is reading once: while the semaphore
    counts the buffer, [readData(a)] followed by [readData(b)] copies out,
    piece after piece, exactly what one [readData(a + b)] copies, and
    leaves the same buffer and semaphore. *)
Theorem readData_split (w : World Hw) (a b : Z) :
  sem_counts_buffer (self w) ->
  0 <= a -> 0 <= b ->
  exists n1 d1 w1 n2 d2 w2 w12,
    readData a w = Ok (n1, d1) w1 /\
    readData b w1 = Ok (n2, d2) w2 /\
    readData (a + b) w = Ok (n1 + n2, d1 ++ d2) w12 /\
    FTDIreadBuffer (self w2) = FTDIreadBuffer (self w12) /\
    sem (self w2) = sem (self w12).
Proof.
  intros Hinv Ha Hb.
  destruct (readData_invariant_step w a Hinv Ha) as (w1 & Hr1 & Hb1 & Hinv1).
  destruct (readData_invariant_step w1 b Hinv1 Hb)
    as (w2 & Hr2 & Hb2 & Hinv2).
  assert (Hab : 0 <= a + b) by lia.
  destruct (readData_invariant_step w (a + b) Hinv Hab)
    as (w12 & Hr12 & Hb12 & Hinv12).
  cbv zeta in *.
  set (buf := FTDIreadBuffer (self w)) in *.
  set (len := Z.of_nat (List.length buf)) in *.
  assert (Hlen1 : Z.of_nat (List.length (FTDIreadBuffer (self w1)))
                  = len - Z.min a len).
  { rewrite Hb1, length_skipn. subst len. lia. }
  rewrite Hlen1 in Hr2, Hb2.
  set (n1 := Z.min a len) in *.
  set (n2 := Z.min b (len - n1)) in *.
  assert (Hsum : Z.min (a + b) len = n1 + n2) by (subst n1 n2; lia).
  rewrite Hsum in Hr12, Hb12.
  assert (Hnat : Z.to_nat (n1 + n2) = (Z.to_nat n1 + Z.to_nat n2)%nat)
    by (subst n1 n2; lia).
  assert (Hbuf : FTDIreadBuffer (self w2) = FTDIreadBuffer (self w12)).
  { rewrite Hb2, Hb12, Hb1, skipn_skipn, Hnat. f_equal. lia. }
  exists n1, (firstn (Z.to_nat n1) buf), w1,
         n2, (firstn (Z.to_nat n2) (FTDIreadBuffer (self w1))), w2, w12.
  repeat split; try assumption.
  - rewrite Hr12. do 2 f_equal. rewrite Hb1, Hnat.
    rewrite <- (firstn_skipn (Z.to_nat n1) buf) at 1.
    rewrite firstn_app, length_firstn.
    replace (Z.to_nat n1 + Z.to_nat n2 - Nat.min (Z.to_nat n1) (List.length buf))%nat
      with (Z.to_nat n2) by (subst n1 len; lia).
    rewrite firstn_firstn.
    replace (Nat.min (Z.to_nat n1 + Z.to_nat n2) (Z.to_nat n1))
      with (Z.to_nat n1) by lia.
    reflexivity.
  - unfold sem_counts_buffer in Hinv2, Hinv12. rewrite Hinv2, Hinv12, Hbuf.
    reflexivity.
Qed.

End ReadSide.

(** Two of three buffered bytes read. *)
Lemma readData_conserves_bytes_witness :
  exists w',
    readData 2 (start (buffered_session [x01; x02; x03]) (Sim.device [] 0 FT_OK))
      = Ok (2, [x01; x02]) w' /\
    FTDIreadBuffer (self w') = [x03] /\
    sem (self w') = 1.
Proof.
  destruct (readData_conserves_bytes
              (start (buffered_session [x01; x02; x03]) (Sim.device [] 0 FT_OK))
              2)
    as (n & data & w' & Hrun & _ & _ & _ & Hsem & _); [ lia | ].
  vm_compute in Hrun. injection Hrun as <- <- <-.
  eexists. split; [ vm_compute; reflexivity | ].
  split; reflexivity.
Defined.

(** A request of 5 against 3 buffered bytes. *)
Lemma readData_exact_witness :
  exists w',
    readData 5 (start (buffered_session [x01; x02; x03]) (Sim.device [] 0 FT_OK))
      = Ok (3, [x01; x02; x03]) w' /\
    FTDIreadBuffer (self w') = [].
Proof.
  destruct (readData_exact
              (start (buffered_session [x01; x02; x03]) (Sim.device [] 0 FT_OK))
              5)
    as (w' & Hrun & Hbuf & _).
  - reflexivity.
  - lia.
  - exists w'. split; [ exact Hrun | exact Hbuf ].
Defined.

(** Three buffered bytes read as 1 and then 4, against one read of 5. *)
Lemma readData_split_witness :
  exists w1 w2 w12,
    readData 1 (start (buffered_session [x01; x02; x03]) (Sim.device [] 0 FT_OK))
      = Ok (1, [x01]) w1 /\
    readData 4 w1 = Ok (2, [x02; x03]) w2 /\
    readData 5 (start (buffered_session [x01; x02; x03]) (Sim.device [] 0 FT_OK))
      = Ok (3, [x01; x02; x03]) w12 /\
    FTDIreadBuffer (self w2) = FTDIreadBuffer (self w12).
Proof.
  destruct (readData_split
              (start (buffered_session [x01; x02; x03]) (Sim.device [] 0 FT_OK))
              1 4)
    as (n1 & d1 & w1 & n2 & d2 & w2 & w12 & H1 & H2 & H12 & Hbuf & _).
  - reflexivity.
  - lia.
  - lia.
  - vm_compute in H1. injection H1 as <- <- <-.
    vm_compute in H2. injection H2 as <- <- <-.
    vm_compute in H12. injection H12 as <-.
    do 3 eexists.
    split; [ vm_compute; reflexivity | ].
    split; [ vm_compute; reflexivity | ].
    split; [ vm_compute; reflexivity | ].
    reflexivity.
Defined.

(** ** Receive events *)

Section ReceiveEvents.
Context {Hw : Type} (drv : Driver Hw).

(** X4. Whatever the order of receive events and non-negative reads,
    started with a free mutex and the semaphore counting the buffer, the
    run returns and no byte is lost, duplicated or reordered: the bytes
    read so far followed by the bytes still buffered are the bytes
    buffered at the start followed by the chunks the successful [FT_Read]
    calls delivered, in order; the semaphore still counts the buffer. *)
Theorem stream_integrity (ops : list BufferOp) (w : World Hw) :
  ftdiMutex (self w) = false ->
  sem_counts_buffer (self w) ->
  Forall read_size_ok ops ->
  exists out w' new,
    run_ops drv ops w = Ok out w' /\
    calls w' = calls w ++ new /\
    out ++ FTDIreadBuffer (self w')
      = FTDIreadBuffer (self w) ++ List.concat (chunks_read new) /\
    sem_counts_buffer (self w') /\
    ftdiMutex (self w') = false.
Proof.
  revert w. induction ops as [| op ops IH]; intros w Hfree Hinv Hok.
  - exists [], w, []. cbn. rewrite !app_nil_r. repeat split; assumption.
  - inversion Hok as [| ? ? Hop Hrest]; subst.
    destruct op as [| maxSize].
    + destruct (on_FTDIreceive_step drv w Hfree)
        as (w1 & new1 & Hrun1 & Hcalls1 & Hbuf1 & Hsem1 & Hfree1).
      assert (Hinv1 : sem_counts_buffer (self w1)).
      { unfold sem_counts_buffer in *.
        rewrite Hsem1, Hbuf1, List.length_app, Hinv. lia. }
      destruct (IH w1 Hfree1 Hinv1 Hrest)
        as (out & w2 & new2 & Hrun2 & Hcalls2 & Hbuf2 & Hinv2 & Hfree2).
      exists out, w2, (new1 ++ new2).
      split.
      { cbn [run_ops]. unfold bind. rewrite Hrun1. exact Hrun2. }
      rewrite chunks_read_app, List.concat_app.
      rewrite Hcalls2, Hcalls1, Hbuf2, Hbuf1, !app_assoc.
      repeat split; assumption.
    + cbn in Hop.
      destruct (readData_step w maxSize Hop)
        as (n & data & w1 & Hrun1 & Hbuf1 & Hcalls1 & Hmx1 & Hinv1).
      specialize (Hinv1 Hinv). rewrite Hfree in Hmx1.
      destruct (IH w1 Hmx1 Hinv1 Hrest)
        as (out & w2 & new2 & Hrun2 & Hcalls2 & Hbuf2 & Hinv2 & Hfree2).
      exists (data ++ out), w2, new2.
      split.
      { cbn [run_ops]. unfold bind, pure. rewrite Hrun1, Hrun2. reflexivity. }
      rewrite Hcalls2, Hcalls1, <- app_assoc, Hbuf2, app_assoc, Hbuf1.
      repeat split; assumption.
Qed.

(** X5. When [FT_GetQueueStatus] reports queued bytes and the [FT_Read]
    that follows fails, [on_FTDIreceive] appends nothing, even if the
    driver handed back bytes, and releases no semaphore unit; it sets
    [errFlag] to [ReadError] on an open session and [NotOpenError] on a
    closed one, emits [errorOccurred] only, and leaves the open mode as
    it was. *)
Theorem receive_read_failure
    (w : World Hw) (ret0 avail ret : Z) (buff : list byte) (hw1 hw2 : Hw) :
  ftdiMutex (self w) = false ->
  drv _ (FT_GetQueueStatus (ftdi (self w))) (hw w) = ((ret0, avail), hw1) ->
  0 < avail ->
  drv _ (FT_Read (ftdi (self w)) avail) hw1 = ((ret, buff), hw2) ->
  ret <> FT_OK ->
  exists w',
    on_FTDIreceive drv w = Ok tt w' /\
    FTDIreadBuffer (self w') = FTDIreadBuffer (self w) /\
    sem (self w') = sem (self w) /\
    errFlag (self w') =
      (if openMode (self w) =? NotOpen then NotOpenError else ReadError) /\
    emitted w' = emitted w ++ [errorOccurred] /\
    openMode (self w') = openMode (self w) /\
    ftdiMutex (self w') = false.
Proof.
  intros Hfree Hq Hav Hrd Hret.
  apply Z.ltb_lt in Hav. apply Z.eqb_neq in Hret.
  unfold on_FTDIreceive; unfold_ops; cbn.
  rewrite Hfree; cbn. rewrite Hq; cbn. rewrite Hav; cbn.
  rewrite Hrd; cbn. rewrite Hret; cbn.
  destruct (ret =? FT_IO_ERROR); cbn;
    destruct (openMode (self w) =? NotOpen); cbn;
    eexists; repeat split.
Qed.

(** X6. When [FT_GetQueueStatus] reports no queued byte,
    [on_FTDIreceive] does nothing more, whatever status that call
    answered: no [FT_Read], no signal, no error flag, the object as it
    was. *)
Theorem receive_nothing_queued
    (w : World Hw) (ret0 avail : Z) (hw1 : Hw) :
  ftdiMutex (self w) = false ->
  drv _ (FT_GetQueueStatus (ftdi (self w))) (hw w) = ((ret0, avail), hw1) ->
  avail <= 0 ->
  on_FTDIreceive drv w =
    Ok tt {| self := self w; hw := hw1;
             calls := calls w ++
                      [Call (FT_GetQueueStatus (ftdi (self w))) (ret0, avail)];
             emitted := emitted w |}.
Proof.
  intros Hfree Hq Hav.
  assert (Hlt : (0 <? avail) = false) by (apply Z.ltb_ge; exact Hav).
  unfold on_FTDIreceive; unfold_ops; cbn.
  rewrite Hfree; cbn. rewrite Hq; cbn. rewrite Hlt; cbn.
  rewrite with_ftdiMutex_twice, with_ftdiMutex_same by assumption.
  reflexivity.
Qed.

End ReceiveEvents.

(** A drain, a short read, a second drain and a long read on the
    simulated device. *)
Lemma stream_integrity_witness :
  exists w',
    run_ops Sim.driver [OpDrain; OpRead 2; OpDrain; OpRead 10]
      (start Sim.opened (Sim.device [[x01; x02; x03]; [x04; x05]] 0 FT_OK))
      = Ok [x01; x02; x03; x04; x05] w' /\
    FTDIreadBuffer (self w') = [].
Proof.
  destruct (stream_integrity Sim.driver
              [OpDrain; OpRead 2; OpDrain; OpRead 10]
              (start Sim.opened
                 (Sim.device [[x01; x02; x03]; [x04; x05]] 0 FT_OK)))
    as (out & w' & new & Hrun & _).
  - reflexivity.
  - reflexivity.
  - repeat constructor; cbn; lia.
  - vm_compute in Hrun. injection Hrun as <- <-.
    eexists. split; [ vm_compute; reflexivity | reflexivity ].
Defined.

(** Three bytes queued, the read answers [FT_IO_ERROR]. *)
Lemma receive_read_failure_witness :
  exists w',
    on_FTDIreceive Sim.driver
      (start Sim.opened (Sim.device [[x01; x02; x03]] 0 FT_IO_ERROR))
      = Ok tt w' /\
    FTDIreadBuffer (self w') = [] /\
    errFlag (self w') = ReadError.
Proof.
  destruct (receive_read_failure Sim.driver
              (start Sim.opened (Sim.device [[x01; x02; x03]] 0 FT_IO_ERROR))
              FT_IO_ERROR 3 FT_IO_ERROR [x01; x02; x03]
              (Sim.device [[x01; x02; x03]] 0 FT_IO_ERROR)
              (Sim.device [] 0 FT_IO_ERROR) eq_refl eq_refl)
    as (w' & Hrun & Hbuf & _ & Hflag & _).
  - lia.
  - reflexivity.
  - discriminate.
  - exists w'. repeat split; assumption.
Defined.

(** An empty queue on a driver that answers [FT_IO_ERROR]. *)
Lemma receive_nothing_queued_witness :
  exists w',
    on_FTDIreceive Sim.driver
      (start Sim.opened (Sim.device [] 0 FT_IO_ERROR)) = Ok tt w' /\
    self w' = Sim.opened /\ emitted w' = [].
Proof.
  eexists. split.
  - apply (receive_nothing_queued Sim.driver
             (start Sim.opened (Sim.device [] 0 FT_IO_ERROR))
             FT_IO_ERROR 0 (Sim.device [] 0 FT_IO_ERROR) eq_refl eq_refl).
    lia.
  - split; reflexivity.
Defined.

Arguments on_FTDImodemError {Hw} drv _ : simpl never.
Arguments on_FTDIreceive {Hw} drv _ : simpl never.

(** ** Dispatch of driver events *)

Section Dispatch.
Context {Hw : Type} (drv : Driver Hw).

(** The modem status handler as one step: it returns with the mutex
    free, reads nothing from the receive queue and leaves buffer and
    semaphore alone. *)
Lemma on_FTDImodemError_step (w : World Hw) :
  ftdiMutex (self w) = false ->
  exists w1 new,
    on_FTDImodemError drv w = Ok tt w1 /\
    calls w1 = calls w ++ new /\
    chunks_read new = [] /\
    FTDIreadBuffer (self w1) = FTDIreadBuffer (self w) /\
    sem (self w1) = sem (self w) /\
    ftdiMutex (self w1) = false.
Proof.
  intros Hfree.
  unfold on_FTDImodemError; unfold_ops; cbn.
  rewrite Hfree; cbn.
  destruct (drv _ _ (hw w)) as [[ret ms] hw1]; cbn.
  destruct (ret =? FT_OK); cbn.
  - destruct (truthy (Z.land ms 36352)); cbn.
    + destruct (drv _ _ hw1) as [st hw2]; cbn.
      do 2 eexists. split; [ reflexivity | ]. cbn.
      rewrite <- app_assoc. split; [ reflexivity | ]. repeat split.
    + do 2 eexists. split; [ reflexivity | ]. cbn.
      split; [ reflexivity | ]. repeat split.
  - destruct (openMode (self w) =? NotOpen); cbn;
      do 2 eexists; (split; [ reflexivity | ]); cbn;
      (split; [ reflexivity | ]); repeat split.
Qed.

(** After a successful status query [on_FTDIevent] hands over to one
    handler, chosen by the event word. *)
Lemma on_FTDIevent_dispatch
    (w : World Hw) (RxBytes TxBytes EventDWord : Z) (hw1 : Hw) :
  ftdiMutex (self w) = false ->
  drv _ (FT_GetStatus (ftdi (self w))) (hw w)
    = ((FT_OK, (RxBytes, TxBytes, EventDWord)), hw1) ->
  let w1 := {| self := self w; hw := hw1;
               calls := calls w ++
                        [Call (FT_GetStatus (ftdi (self w)))
                              (FT_OK, (RxBytes, TxBytes, EventDWord))];
               emitted := emitted w |} in
  on_FTDIevent drv w =
    if truthy (Z.land EventDWord FT_EVENT_MODEM_STATUS)
    then on_FTDImodemError drv w1
    else if truthy (Z.land EventDWord FT_EVENT_RXCHAR)
         then on_FTDIreceive drv w1
         else Ok tt w1.
Proof.
  intros Hfree Hst w1. subst w1.
  unfold on_FTDIevent; unfold_ops; cbn -[Z.land truthy].
  rewrite Hfree; cbn -[Z.land truthy]. rewrite Hst; cbn -[Z.land truthy].
  rewrite with_ftdiMutex_twice, with_ftdiMutex_same by assumption.
  destruct (truthy (Z.land EventDWord FT_EVENT_MODEM_STATUS));
    [ reflexivity | ].
  destruct (truthy (Z.land EventDWord FT_EVENT_RXCHAR)); reflexivity.
Qed.

(** The failing status query as one step. *)
Lemma event_status_failure_aux
    (w : World Hw) (ret RxBytes TxBytes EventDWord : Z) (hw1 : Hw) :
  ftdiMutex (self w) = false ->
  drv _ (FT_GetStatus (ftdi (self w))) (hw w)
    = ((ret, (RxBytes, TxBytes, EventDWord)), hw1) ->
  ret <> FT_OK ->
  exists w',
    on_FTDIevent drv w = Ok tt w' /\
    calls w' = calls w ++
               [Call (FT_GetStatus (ftdi (self w)))
                     (ret, (RxBytes, TxBytes, EventDWord))] /\
    FTDIreadBuffer (self w') = FTDIreadBuffer (self w) /\
    sem (self w') = sem (self w) /\
    ftdiMutex (self w') = false.
Proof.
  intros Hfree Hst Hret. apply Z.eqb_neq in Hret.
  unfold on_FTDIevent; unfold_ops; cbn.
  rewrite Hfree; cbn. rewrite Hst; cbn. rewrite Hret; cbn.
  destruct (openMode (self w) =? NotOpen); cbn;
    eexists; repeat split.
Qed.

(** X7. A modem status event wins over received data: when the event
    word has the modem status bit set, [on_FTDIevent] runs the modem
    status handler and nothing else, also if the receive bit is set and
    bytes are queued; the buffer and the semaphore stay as they were, so
    those bytes are not drained by this event. *)
Theorem event_modem_status_first
    (w : World Hw) (RxBytes TxBytes EventDWord : Z) (hw1 : Hw) :
  ftdiMutex (self w) = false ->
  drv _ (FT_GetStatus (ftdi (self w))) (hw w)
    = ((FT_OK, (RxBytes, TxBytes, EventDWord)), hw1) ->
  Z.land EventDWord FT_EVENT_MODEM_STATUS <> 0 ->
  exists w' new,
    on_FTDIevent drv w = Ok tt w' /\
    on_FTDImodemError drv
      {| self := self w; hw := hw1;
         calls := calls w ++
                  [Call (FT_GetStatus (ftdi (self w)))
                        (FT_OK, (RxBytes, TxBytes, EventDWord))];
         emitted := emitted w |} = Ok tt w' /\
    calls w' = calls w ++ new /\
    chunks_read new = [] /\
    FTDIreadBuffer (self w') = FTDIreadBuffer (self w) /\
    sem (self w') = sem (self w).
Proof.
  intros Hfree Hst Hbit. apply truthy_true in Hbit.
  rewrite (on_FTDIevent_dispatch w _ _ _ _ Hfree Hst). cbv zeta.
  rewrite Hbit.
  match goal with
  | |- context [on_FTDImodemError drv ?w1] =>
      destruct (on_FTDImodemError_step w1 Hfree)
        as (w' & new & Hrun & Hcalls & Hchunks & Hbuf & Hsem & _)
  end.
  cbn in Hcalls, Hbuf, Hsem.
  exists w'. eexists. split; [ exact Hrun | ]. split; [ exact Hrun | ].
  split; [ rewrite Hcalls, <- app_assoc; reflexivity | ].
  split; [ | split; assumption ].
  rewrite chunks_read_app, Hchunks. reflexivity.
Qed.

(** X8. An event word with neither the modem status bit nor the receive
    bit is ignored: after the status query [on_FTDIevent] returns with
    the object as it was, no further driver call and no signal. *)
Theorem event_unknown_ignored
    (w : World Hw) (RxBytes TxBytes EventDWord : Z) (hw1 : Hw) :
  ftdiMutex (self w) = false ->
  drv _ (FT_GetStatus (ftdi (self w))) (hw w)
    = ((FT_OK, (RxBytes, TxBytes, EventDWord)), hw1) ->
  Z.land EventDWord FT_EVENT_MODEM_STATUS = 0 ->
  Z.land EventDWord FT_EVENT_RXCHAR = 0 ->
  on_FTDIevent drv w =
    Ok tt {| self := self w; hw := hw1;
             calls := calls w ++
                      [Call (FT_GetStatus (ftdi (self w)))
                            (FT_OK, (RxBytes, TxBytes, EventDWord))];
             emitted := emitted w |}.
Proof.
  intros Hfree Hst Hm Hr.
  rewrite (on_FTDIevent_dispatch w _ _ _ _ Hfree Hst). cbv zeta.
  rewrite Hm, Hr. reflexivity.
Qed.

(** X9. From a free mutex [on_FTDIevent] always returns and frees the
    mutex again, whatever the driver answers; the receive buffer only
    grows at the back, by the chunks of the successful [FT_Read] calls of
    this event, and a semaphore that counted the buffer still does. *)
Theorem event_handler_safe (w : World Hw) :
  ftdiMutex (self w) = false ->
  exists w' new,
    on_FTDIevent drv w = Ok tt w' /\
    ftdiMutex (self w') = false /\
    calls w' = calls w ++ new /\
    FTDIreadBuffer (self w')
      = FTDIreadBuffer (self w) ++ List.concat (chunks_read new) /\
    (sem_counts_buffer (self w) -> sem_counts_buffer (self w')).
Proof.
  intros Hfree.
  destruct (drv _ (FT_GetStatus (ftdi (self w))) (hw w))
    as [[ret [[rx tx] ev]] hw1] eqn:Hst.
  destruct (Z.eq_dec ret FT_OK) as [-> | Hret].
  - rewrite (on_FTDIevent_dispatch w _ _ _ _ Hfree Hst). cbv zeta.
    set (w1 := {| self := self w; hw := hw1;
                  calls := calls w ++ [Call (FT_GetStatus (ftdi (self w)))
                                            (FT_OK, (rx, tx, ev))];
                  emitted := emitted w |}).
    destruct (truthy (Z.land ev FT_EVENT_MODEM_STATUS)).
    + destruct (on_FTDImodemError_step w1 Hfree)
        as (w' & new & Hrun & Hcalls & Hchunks & Hbuf & Hsem & Hfree').
      cbn in Hcalls, Hbuf, Hsem.
      exists w'. eexists. split; [ exact Hrun | ]. split; [ exact Hfree' | ].
      split; [ rewrite Hcalls, <- app_assoc; reflexivity | ].
      rewrite chunks_read_app, Hchunks. cbn. rewrite app_nil_r.
      split; [ exact Hbuf | ].
      unfold sem_counts_buffer. rewrite Hbuf, Hsem. auto.
    + destruct (truthy (Z.land ev FT_EVENT_RXCHAR)).
      * destruct (on_FTDIreceive_step drv w1 Hfree)
          as (w' & new & Hrun & Hcalls & Hbuf & Hsem & Hfree').
        cbn in Hcalls, Hbuf, Hsem.
        exists w'. eexists. split; [ exact Hrun | ]. split; [ exact Hfree' | ].
        split; [ rewrite Hcalls, <- app_assoc; reflexivity | ].
        rewrite chunks_read_app. cbn.
        split; [ exact Hbuf | ].
        unfold sem_counts_buffer. rewrite Hbuf, Hsem, List.length_app.
        intros ->. lia.
      * exists w1. eexists. split; [ reflexivity | ]. cbn.
        split; [ exact Hfree | ]. split; [ reflexivity | ].
        cbn. rewrite app_nil_r. auto.
  - destruct (event_status_failure_aux w ret rx tx ev hw1 Hfree Hst Hret)
      as (w' & Hrun & Hcalls & Hbuf & Hsem & Hfree').
    exists w'. eexists. split; [ exact Hrun | ]. split; [ exact Hfree' | ].
    split; [ exact Hcalls | ]. cbn. rewrite app_nil_r.
    split; [ exact Hbuf | ].
    unfold sem_counts_buffer. rewrite Hbuf, Hsem. auto.
Qed.

End Dispatch.

(** Modem status and receive bits both set, three bytes queued, status
    word 0x1000: the break flag is set and the bytes stay in the device. *)
Lemma event_modem_status_first_witness :
  exists w',
    on_FTDIevent (driver_with_event 3)
      (start Sim.opened (Sim.device [[x01; x02; x03]] 0x1000 FT_OK))
      = Ok tt w' /\
    FTDIreadBuffer (self w') = [] /\
    chunks_read (calls w') = [].
Proof.
  destruct (event_modem_status_first (driver_with_event 3)
              (start Sim.opened (Sim.device [[x01; x02; x03]] 0x1000 FT_OK))
              3 0 3 (Sim.device [[x01; x02; x03]] 0x1000 FT_OK)
              eq_refl eq_refl)
    as (w' & new & Hrun & _ & Hcalls & Hchunks & Hbuf & _).
  - vm_compute. discriminate.
  - exists w'. split; [ exact Hrun | ]. split; [ exact Hbuf | ].
    rewrite Hcalls. exact Hchunks.
Defined.

(** Event word 4 on the simulated device. *)
Lemma event_unknown_ignored_witness :
  exists w',
    on_FTDIevent (driver_with_event 4)
      (start Sim.opened (Sim.device [[x01; x02; x03]] 0 FT_OK)) = Ok tt w' /\
    self w' = Sim.opened /\ emitted w' = [].
Proof.
  eexists. split.
  - apply (event_unknown_ignored (driver_with_event 4)
             (start Sim.opened (Sim.device [[x01; x02; x03]] 0 FT_OK))
             3 0 4 (Sim.device [[x01; x02; x03]] 0 FT_OK) eq_refl eq_refl);
      reflexivity.
  - split; reflexivity.
Defined.

(** A receive event with three bytes queued. *)
Lemma event_handler_safe_witness :
  exists w',
    on_FTDIevent Sim.driver
      (start Sim.opened (Sim.device [[x01; x02; x03]] 0 FT_OK)) = Ok tt w' /\
    ftdiMutex (self w') = false /\
    FTDIreadBuffer (self w') = [x01; x02; x03].
Proof.
  destruct (event_handler_safe Sim.driver
              (start Sim.opened (Sim.device [[x01; x02; x03]] 0 FT_OK))
              eq_refl)
    as (w' & new & Hrun & Hfree & _).
  exists w'. split; [ exact Hrun | ]. split; [ exact Hfree | ].
  vm_compute in Hrun. injection Hrun as <-. reflexivity.
Defined.

(** ** More on the modem status word *)

Section ModemMore.
Context {Hw : Type} (drv : Driver Hw).

Lemma truthy_false_eq (z : Z) : z = 0 -> truthy z = false.
Proof. intros ->. reflexivity. Qed.

(** The handler after a successful status read: either a serious error
    and the object untouched, or the error flags replaced by the break
    flag alone. *)
Lemma on_FTDImodemError_ok_cases (w : World Hw) (modemStatus : Z) (hw1 : Hw) :
  ftdiMutex (self w) = false ->
  drv _ (FT_GetModemStatus (ftdi (self w))) (hw w)
    = ((FT_OK, modemStatus), hw1) ->
  exists w',
    on_FTDImodemError drv w = Ok tt w' /\
    emitted w' = emitted w /\
    ((serious_error modemStatus /\ self w' = self w) \/
     (~ serious_error modemStatus /\
      self w' = with_errFlag
                  (if truthy (Z.land modemStatus BI_bit)
                   then BreakConditionError else NoError) (self w))).
Proof.
  intros Hfree Hms.
  unfold on_FTDImodemError; unfold_ops; cbn -[Z.land truthy].
  rewrite Hfree; cbn -[Z.land truthy]. rewrite Hms; cbn -[Z.land truthy].
  destruct (Z.eq_dec (Z.land modemStatus 0x8E00) 0) as [E | N].
  - assert (Hnot : ~ serious_error modemStatus)
      by (rewrite serious_mask; intros H; apply H; exact E).
    rewrite (truthy_false_eq _ E); cbn -[Z.land truthy].
    unfold serious_error in Hnot.
    rewrite (truthy_false_eq (Z.land modemStatus 0x8000))
      by (apply not_bit_set; tauto).
    rewrite (truthy_false_eq (Z.land modemStatus 0x0800))
      by (apply not_bit_set; tauto).
    rewrite (truthy_false_eq (Z.land modemStatus 0x0400))
      by (apply not_bit_set; tauto).
    rewrite (truthy_false_eq (Z.land modemStatus 0x0200))
      by (apply not_bit_set; tauto).
    eexists. split; [ reflexivity | ]. split; [ reflexivity | ].
    right. split; [ exact Hnot | ]. cbn -[Z.land truthy].
    rewrite with_ftdiMutex_twice.
    unfold BI_bit.
    destruct (truthy (Z.land modemStatus 4096)); cbn;
      destruct (self w); cbn in *; subst; reflexivity.
  - assert (Hser : serious_error modemStatus) by (apply serious_mask; exact N).
    rewrite (truthy_true _ N); cbn -[Z.land truthy].
    destruct (drv _ _ hw1) as [st hw2]; cbn.
    eexists. split; [ reflexivity | ]. split; [ reflexivity | ].
    left. split; [ exact Hser | ]. cbn.
    rewrite !with_ftdiMutex_twice. apply with_ftdiMutex_same. exact Hfree.
Qed.

(** X10. When [FT_GetModemStatus] fails, [on_FTDImodemError] classifies
    nothing and purges nothing, whatever word came back: it sets
    [errFlag] to [ReadError] on an open session and [NotOpenError] on a
    closed one and emits [errorOccurred]. *)
Theorem modem_status_read_failure
    (w : World Hw) (ret modemStatus : Z) (hw1 : Hw) :
  ftdiMutex (self w) = false ->
  drv _ (FT_GetModemStatus (ftdi (self w))) (hw w)
    = ((ret, modemStatus), hw1) ->
  ret <> FT_OK ->
  exists w',
    on_FTDImodemError drv w = Ok tt w' /\
    errFlag (self w') =
      (if openMode (self w) =? NotOpen then NotOpenError else ReadError) /\
    emitted w' = emitted w ++ [errorOccurred] /\
    calls w' = calls w ++
               [Call (FT_GetModemStatus (ftdi (self w))) (ret, modemStatus)] /\
    FTDIreadBuffer (self w') = FTDIreadBuffer (self w) /\
    openMode (self w') = openMode (self w).
Proof.
  intros Hfree Hms Hret. apply Z.eqb_neq in Hret.
  unfold on_FTDImodemError; unfold_ops; cbn -[Z.land truthy].
  rewrite Hfree; cbn -[Z.land truthy]. rewrite Hms; cbn -[Z.land truthy].
  rewrite Hret; cbn.
  destruct (openMode (self w) =? NotOpen); cbn; eexists; repeat split.
Qed.

(** X11. A successfully read status word without a serious error bit
    replaces the error flags wholesale: afterwards [errFlag] is
    [BreakConditionError] if the break bit is set and [NoError] if not,
    whatever was recorded before, so an earlier [ReadError] is gone
    without [clearError]. *)
Theorem modem_benign_overwrites
    (w : World Hw) (modemStatus : Z) (hw1 : Hw) :
  ftdiMutex (self w) = false ->
  drv _ (FT_GetModemStatus (ftdi (self w))) (hw w)
    = ((FT_OK, modemStatus), hw1) ->
  ~ serious_error modemStatus ->
  exists w',
    on_FTDImodemError drv w = Ok tt w' /\
    errFlag (self w') =
      (if truthy (Z.land modemStatus BI_bit)
       then BreakConditionError else NoError) /\
    emitted w' = emitted w /\
    openMode (self w') = openMode (self w).
Proof.
  intros Hfree Hms Hnot.
  destruct (on_FTDImodemError_ok_cases w modemStatus hw1 Hfree Hms)
    as (w' & Hrun & Hemit & [[Hser _] | [_ Hself]]); [ contradiction | ].
  exists w'. rewrite Hself. repeat split; assumption.
Qed.

(** X12. The handler never reports an overrun, parity, framing or FIFO
    error: after any successfully read status word [errFlag] is what it
    was before, or [NoError], or [BreakConditionError], and no signal is
    emitted. *)
Theorem modem_never_reports_serious
    (w : World Hw) (modemStatus : Z) (hw1 : Hw) :
  ftdiMutex (self w) = false ->
  drv _ (FT_GetModemStatus (ftdi (self w))) (hw w)
    = ((FT_OK, modemStatus), hw1) ->
  exists w',
    on_FTDImodemError drv w = Ok tt w' /\
    (errFlag (self w') = errFlag (self w) \/
     errFlag (self w') = NoError \/
     errFlag (self w') = BreakConditionError) /\
    emitted w' = emitted w.
Proof.
  intros Hfree Hms.
  destruct (on_FTDImodemError_ok_cases w modemStatus hw1 Hfree Hms)
    as (w' & Hrun & Hemit & [[_ Hself] | [_ Hself]]);
    exists w'; rewrite Hself; (split; [ exact Hrun | ]);
    (split; [ | exact Hemit ]).
  - left. reflexivity.
  - right. cbn. destruct (truthy (Z.land modemStatus BI_bit)); auto.
Qed.

End ModemMore.

(** A failing status read on an open simulated session. *)
Lemma modem_status_read_failure_witness :
  exists w',
    on_FTDImodemError Sim.driver
      (start Sim.opened (Sim.device [] 0x8000 FT_IO_ERROR)) = Ok tt w' /\
    errFlag (self w') = ReadError /\
    purges (calls w') = [].
Proof.
  destruct (modem_status_read_failure Sim.driver
              (start Sim.opened (Sim.device [] 0x8000 FT_IO_ERROR))
              FT_IO_ERROR 0x8000 (Sim.device [] 0x8000 FT_IO_ERROR)
              eq_refl eq_refl)
    as (w' & Hrun & Hflag & _ & Hcalls & _).
  - discriminate.
  - exists w'. split; [ exact Hrun | ]. split; [ exact Hflag | ].
    rewrite Hcalls. reflexivity.
Defined.

(** A session with [ReadError] recorded receives status word 0. *)
Lemma modem_benign_overwrites_witness :
  exists w',
    on_FTDImodemError Sim.driver
      (start (with_errFlag ReadError Sim.opened) (Sim.device [] 0 FT_OK))
      = Ok tt w' /\
    errFlag (self w') = NoError.
Proof.
  destruct (modem_benign_overwrites Sim.driver
              (start (with_errFlag ReadError Sim.opened)
                     (Sim.device [] 0 FT_OK))
              0 (Sim.device [] 0 FT_OK) eq_refl eq_refl)
    as (w' & Hrun & Hflag & _).
  - unfold serious_error, bit_set. vm_compute. intuition congruence.
  - exists w'. split; [ exact Hrun | exact Hflag ].
Defined.

(** Status word 0x0E00: overrun, parity and framing error. *)
Lemma modem_never_reports_serious_witness :
  exists w',
    on_FTDImodemError Sim.driver
      (start Sim.opened (Sim.device [] 0x0E00 FT_OK)) = Ok tt w' /\
    errFlag (self w') = NoError.
Proof.
  destruct (modem_never_reports_serious Sim.driver
              (start Sim.opened (Sim.device [] 0x0E00 FT_OK))
              0x0E00 (Sim.device [] 0x0E00 FT_OK) eq_refl eq_refl)
    as (w' & Hrun & _ & _).
  exists w'. split; [ exact Hrun | ].
  vm_compute in Hrun. injection Hrun as <-. reflexivity.
Defined.

(** ** Line signals *)

Section Pinout.
Context {Hw : Type} (drv : Driver Hw).

Lemma truthy_iff (z : Z) : truthy z = true <-> z <> 0.
Proof.
  unfold truthy. destruct (Z.eqb_spec z 0); cbn; split; congruence.
Qed.

(** X13. [pinoutSignals] gives [NoSignal] without a driver call on a
    closed session, and [NoSignal] with only the error string set when
    the status read of an open session fails: [errFlag] is untouched and
    no signal is emitted, so the caller cannot tell either case from idle
    lines by the result. *)
Theorem pinoutSignals_no_signal (w : World Hw) :
  (openMode (self w) = NotOpen -> pinoutSignals drv w = Ok NoSignal w) /\
  (forall ret modemStatus hw1,
      openMode (self w) <> NotOpen ->
      ftdiMutex (self w) = false ->
      drv _ (FT_GetModemStatus (ftdi (self w))) (hw w)
        = ((ret, modemStatus), hw1) ->
      ret <> FT_OK ->
      exists w',
        pinoutSignals drv w = Ok NoSignal w' /\
        errFlag (self w') = errFlag (self w) /\
        emitted w' = emitted w /\
        errorString (self w')
          = "an error occured while reading the modem status").
Proof.
  split.
  - intros Hclosed. unfold pinoutSignals; unfold_ops; cbn.
    rewrite Hclosed. reflexivity.
  - intros ret ms hw1 Hopen Hfree Hms Hret.
    apply Z.eqb_neq in Hopen. apply Z.eqb_neq in Hret.
    unfold pinoutSignals; unfold_ops; cbn -[Z.land truthy].
    rewrite Hopen; cbn -[Z.land truthy].
    rewrite Hfree; cbn -[Z.land truthy]. rewrite Hms; cbn -[Z.land truthy].
    rewrite Hret; cbn.
    eexists; repeat split.
Qed.

(** X14. On an open session whose status read succeeds,
    [pinoutSignals] reports each line exactly when its bit of the status
    word is set: received line signal detect from bit 7, ring indicator
    from bit 6, data set ready from bit 5, clear to send from bit 4; no
    other bit of the word matters and the object is left as it was. *)
Theorem pinoutSignals_bits (w : World Hw) (modemStatus : Z) (hw1 : Hw) :
  openMode (self w) <> NotOpen ->
  ftdiMutex (self w) = false ->
  drv _ (FT_GetModemStatus (ftdi (self w))) (hw w)
    = ((FT_OK, modemStatus), hw1) ->
  exists r w',
    pinoutSignals drv w = Ok r w' /\
    self w' = self w /\
    (Z.land r ReceivedDataSignal <> 0 <-> Z.land modemStatus 0x80 <> 0) /\
    (Z.land r RingIndicatorSignal <> 0 <-> Z.land modemStatus 0x40 <> 0) /\
    (Z.land r DataSetReadySignal <> 0 <-> Z.land modemStatus 0x20 <> 0) /\
    (Z.land r ClearToSendSignal <> 0 <-> Z.land modemStatus 0x10 <> 0) /\
    Z.land r (Z.lor (Z.lor ReceivedDataSignal RingIndicatorSignal)
                    (Z.lor DataSetReadySignal ClearToSendSignal)) = r.
Proof.
  intros Hopen Hfree Hms.
  apply Z.eqb_neq in Hopen.
  unfold pinoutSignals; unfold_ops; cbn -[Z.land truthy].
  rewrite Hopen; cbn -[Z.land truthy].
  rewrite Hfree; cbn -[Z.land truthy]. rewrite Hms; cbn -[Z.land truthy].
  rewrite with_ftdiMutex_twice, with_ftdiMutex_same by assumption.
  do 2 eexists. split; [ reflexivity | ]. split; [ reflexivity | ].
  rewrite <- !truthy_iff.
  destruct (truthy (Z.land modemStatus 128));
    destruct (truthy (Z.land modemStatus 64));
    destruct (truthy (Z.land modemStatus 32));
    destruct (truthy (Z.land modemStatus 16));
    vm_compute; intuition congruence.
Qed.

End Pinout.

(** A closed session, and an open one whose driver answers
    [FT_IO_ERROR]. *)
Lemma pinoutSignals_no_signal_witness :
  pinoutSignals Sim.driver (start Sim.fresh (Sim.device [] 0xF0 FT_OK))
    = Ok NoSignal (start Sim.fresh (Sim.device [] 0xF0 FT_OK)) /\
  exists w',
    pinoutSignals Sim.driver (start Sim.opened (Sim.device [] 0xF0 FT_IO_ERROR))
      = Ok NoSignal w' /\
    errFlag (self w') = NoError.
Proof.
  split.
  - apply (proj1 (pinoutSignals_no_signal Sim.driver
                    (start Sim.fresh (Sim.device [] 0xF0 FT_OK)))).
    reflexivity.
  - destruct (proj2 (pinoutSignals_no_signal Sim.driver
                       (start Sim.opened (Sim.device [] 0xF0 FT_IO_ERROR)))
                FT_IO_ERROR 0xF0 (Sim.device [] 0xF0 FT_IO_ERROR))
      as (w' & Hrun & Hflag & _).
    + vm_compute. discriminate.
    + reflexivity.
    + reflexivity.
    + discriminate.
    + exists w'. split; [ exact Hrun | exact Hflag ].
Defined.

(** Status word 0x6090: clear to send and carrier detect. *)
Lemma pinoutSignals_bits_witness :
  exists w',
    pinoutSignals Sim.driver (start Sim.opened (Sim.device [] 0x6090 FT_OK))
      = Ok (Z.lor ReceivedDataSignal ClearToSendSignal) w' /\
    self w' = Sim.opened.
Proof.
  destruct (pinoutSignals_bits Sim.driver
              (start Sim.opened (Sim.device [] 0x6090 FT_OK)) 0x6090
              (Sim.device [] 0x6090 FT_OK))
    as (r & w' & Hrun & Hself & _).
  - vm_compute. discriminate.
  - reflexivity.
  - reflexivity.
  - exists w'. split; [ | exact Hself ].
    rewrite Hrun. vm_compute in Hrun. injection Hrun as <- _. reflexivity.
Defined.

(** ** Setters and what they commit *)

Section Setters.
Context {Hw : Type} (drv : Driver Hw).



(** X17. On an open session [setDataTerminalReady(set)] asks the driver
    to set the line when [set] is true and to clear it when false; it
    returns true, stores [set] and emits [dataTerminalReadyChanged]
    exactly when the driver answers [FT_OK], and otherwise keeps the
    stored state. *)
Theorem setDataTerminalReady_open
    (w : World Hw) (set : bool) (st : FT_STATUS) (hw1 : Hw) :
  openMode (self w) <> NotOpen ->
  ftdiMutex (self w) = false ->
  drv _ (if set then FT_SetDtr (ftdi (self w)) else FT_ClrDtr (ftdi (self w)))
      (hw w) = (st, hw1) ->
  exists w',
    setDataTerminalReady drv set w = Ok (st =? FT_OK) w' /\
    calls w' = calls w ++
               [Call (if set then FT_SetDtr (ftdi (self w))
                      else FT_ClrDtr (ftdi (self w))) st] /\
    FTDIdtr (self w') = (if st =? FT_OK then set else FTDIdtr (self w)) /\
    emitted w'
      = (if st =? FT_OK then emitted w ++ [dataTerminalReadyChanged set]
         else emitted w) /\
    ftdiMutex (self w') = false.
Proof.
  intros Hopen Hfree Hcall. apply Z.eqb_neq in Hopen.
  unfold setDataTerminalReady; unfold_ops; cbn.
  rewrite Hopen; cbn. rewrite Hfree; cbn.
  destruct set; cbn; rewrite Hcall; cbn;
    destruct (st =? FT_OK); cbn; eexists; repeat split.
Qed.

(** X18. The same for [setRequestToSend(set)], with [FT_SetRts] and
    [FT_ClrRts], [FTDIrts] and [requestToSendChanged]. *)
Theorem setRequestToSend_open
    (w : World Hw) (set : bool) (st : FT_STATUS) (hw1 : Hw) :
  openMode (self w) <> NotOpen ->
  ftdiMutex (self w) = false ->
  drv _ (if set then FT_SetRts (ftdi (self w)) else FT_ClrRts (ftdi (self w)))
      (hw w) = (st, hw1) ->
  exists w',
    setRequestToSend drv set w = Ok (st =? FT_OK) w' /\
    calls w' = calls w ++
               [Call (if set then FT_SetRts (ftdi (self w))
                      else FT_ClrRts (ftdi (self w))) st] /\
    FTDIrts (self w') = (if st =? FT_OK then set else FTDIrts (self w)) /\
    emitted w'
      = (if st =? FT_OK then emitted w ++ [requestToSendChanged set]
         else emitted w) /\
    ftdiMutex (self w') = false.
Proof.
  intros Hopen Hfree Hcall. apply Z.eqb_neq in Hopen.
  unfold setRequestToSend; unfold_ops; cbn.
  rewrite Hopen; cbn. rewrite Hfree; cbn.
  destruct set; cbn; rewrite Hcall; cbn;
    destruct (st =? FT_OK); cbn; eexists; repeat split.
Qed.

(** X19. On an open session, when [FT_SetBaudRate] succeeds,
    [setBaudRate(b)] returns true after that one driver call, the session
    stays open, [baudRate()] reads [b] and [baudRateChanged(b)] is the
    only signal. *)
Theorem setBaudRate_open_success (w : World Hw) (b : Z) (hw1 : Hw) :
  openMode (self w) <> NotOpen ->
  ftdiMutex (self w) = false ->
  INT32_MIN <= b <= INT32_MAX ->
  drv _ (FT_SetBaudRate (ftdi (self w)) (to_uint32 b)) (hw w) = (FT_OK, hw1) ->
  exists w',
    setBaudRate drv b w = Ok true w' /\
    calls w' = calls w ++
               [Call (FT_SetBaudRate (ftdi (self w)) (to_uint32 b)) FT_OK] /\
    openMode (self w') = openMode (self w) /\
    baudRate w' = Ok b w' /\
    emitted w' = emitted w ++ [baudRateChanged b].
Proof.
  intros Hopen Hfree Hrange Hcall. apply Z.eqb_neq in Hopen.
  unfold setBaudRate; unfold_ops; cbn.
  rewrite Hopen; cbn. rewrite Hfree; cbn. rewrite Hcall; cbn.
  eexists. split; [ reflexivity | ]. cbn. repeat split.
  unfold baudRate, gets; cbn.
  rewrite to_int32_to_uint32 by assumption. reflexivity.
Qed.


(** X21. [setBaudRate] on a closed session followed by [baudRate()]
    gives back the argument for every [qint32], but the stored
    [uint32_t] is the argument modulo 2^32: a negative [b] is kept, and
    later passed to the driver by [open], as [b + 2^32]. *)
Theorem setBaudRate_round_trip (w : World Hw) (b : Z) :
  openMode (self w) = NotOpen ->
  INT32_MIN <= b <= INT32_MAX ->
  exists w1,
    setBaudRate drv b w = Ok true w1 /\
    baudRate w1 = Ok b w1 /\
    FTDIbaudRate (self w1) = (if b <? 0 then b + 2 ^ 32 else b) /\
    forall mode w2,
      open drv mode w1 = Ok true w2 ->
      exists new, calls w2 = calls w1 ++ new /\
                  bauds new = [if b <? 0 then b + 2 ^ 32 else b].
Proof.
  intros Hclosed Hrange.
  assert (Hstored : to_uint32 b = (if b <? 0 then b + 2 ^ 32 else b)).
  { unfold to_uint32, INT32_MIN, INT32_MAX in *.
    destruct (Z.ltb_spec b 0).
    - symmetry. apply Z.mod_unique with (q := -1); lia.
    - apply Z.mod_small. lia. }
  unfold setBaudRate; unfold_ops; cbn.
  rewrite Hclosed; cbn.
  eexists. split; [ reflexivity | ]. cbn.
  split.
  { unfold baudRate, gets; cbn.
    rewrite to_int32_to_uint32 by assumption. reflexivity. }
  split; [ exact Hstored | ].
  intros mode w2 Hopen.
  apply open_applies_stored_baud in Hopen. cbn in Hopen.
  rewrite Hstored in Hopen. exact Hopen.
Qed.

(** X22. [writeData] reports only through its result and the error
    string: whatever the driver answers it returns 0 or -1, -1 exactly
    when the status is not [FT_OK], and it never touches [errFlag], the
    receive buffer or the open mode and never emits a signal. *)
Theorem writeData_reports_no_flag
    (w : World Hw) (data : list byte) (st : FT_STATUS) (n : Z) (hw1 : Hw) :
  ftdiMutex (self w) = false ->
  drv _ (FT_Write (ftdi (self w)) data
           (to_uint32 (Z.of_nat (List.length data)))) (hw w)
    = ((st, n), hw1) ->
  exists w',
    writeData drv data w = Ok (if st =? FT_OK then 0 else -1) w' /\
    errFlag (self w') = errFlag (self w) /\
    emitted w' = emitted w /\
    FTDIreadBuffer (self w') = FTDIreadBuffer (self w) /\
    openMode (self w') = openMode (self w) /\
    ftdiMutex (self w') = false.
Proof.
  intros Hfree Hwr.
  unfold writeData; unfold_ops; cbn.
  rewrite Hfree; cbn. rewrite Hwr; cbn.
  destruct (Z.eqb_spec st FT_OK) as [-> | N]; cbn; eexists; repeat split.
Qed.

End Setters.



(** DTR set on the open simulated session. *)
Lemma setDataTerminalReady_open_witness :
  exists w',
    setDataTerminalReady Sim.driver true
      (start Sim.opened (Sim.device [] 0 FT_OK)) = Ok true w' /\
    calls w' = [Call (FT_SetDtr 0x7000) FT_OK] /\
    FTDIdtr (self w') = true.
Proof.
  destruct (setDataTerminalReady_open Sim.driver
              (start Sim.opened (Sim.device [] 0 FT_OK)) true FT_OK
              (Sim.device [] 0 FT_OK))
    as (w' & Hrun & Hcalls & Hdtr & _).
  - vm_compute. discriminate.
  - reflexivity.
  - reflexivity.
  - exists w'. repeat split; assumption.
Defined.

(** RTS cleared on the open simulated session. *)
Lemma setRequestToSend_open_witness :
  exists w',
    setRequestToSend Sim.driver false
      (start (with_FTDIrts true Sim.opened) (Sim.device [] 0 FT_OK))
      = Ok true w' /\
    calls w' = [Call (FT_ClrRts 0x7000) FT_OK] /\
    FTDIrts (self w') = false.
Proof.
  destruct (setRequestToSend_open Sim.driver
              (start (with_FTDIrts true Sim.opened) (Sim.device [] 0 FT_OK))
              false FT_OK (Sim.device [] 0 FT_OK))
    as (w' & Hrun & Hcalls & Hrts & _).
  - vm_compute. discriminate.
  - reflexivity.
  - reflexivity.
  - exists w'. repeat split; assumption.
Defined.

(** 9600 baud on the open simulated session. *)
Lemma setBaudRate_open_success_witness :
  exists w',
    setBaudRate Sim.driver 9600 (start Sim.opened (Sim.device [] 0 FT_OK))
      = Ok true w' /\
    calls w' = [Call (FT_SetBaudRate 0x7000 9600) FT_OK] /\
    emitted w' = [baudRateChanged 9600].
Proof.
  destruct (setBaudRate_open_success Sim.driver
              (start Sim.opened (Sim.device [] 0 FT_OK)) 9600
              (Sim.device [] 0 FT_OK))
    as (w' & Hrun & Hcalls & _ & _ & Hemit).
  - vm_compute. discriminate.
  - reflexivity.
  - vm_compute. split; discriminate.
  - reflexivity.
  - exists w'. repeat split; assumption.
Defined.


(** [setBaudRate(-1)] on the fresh simulated object. *)
Lemma setBaudRate_round_trip_witness :
  exists w1,
    setBaudRate Sim.driver (-1) (start Sim.fresh (Sim.device [] 0 FT_OK))
      = Ok true w1 /\
    baudRate w1 = Ok (-1) w1 /\
    FTDIbaudRate (self w1) = 4294967295.
Proof.
  destruct (setBaudRate_round_trip Sim.driver
              (start Sim.fresh (Sim.device [] 0 FT_OK)) (-1) eq_refl)
    as (w1 & Hrun & Hget & Hstored & _).
  - vm_compute. split; discriminate.
  - exists w1. repeat split; assumption.
Defined.

(** A rejected write of three bytes. *)
Lemma writeData_reports_no_flag_witness :
  exists w',
    writeData Sim.driver [x01; x02; x03]
      (start Sim.opened (Sim.device [] 0 FT_IO_ERROR)) = Ok (-1) w' /\
    errFlag (self w') = NoError /\ emitted w' = [].
Proof.
  destruct (writeData_reports_no_flag Sim.driver
              (start Sim.opened (Sim.device [] 0 FT_IO_ERROR)) [x01; x02; x03]
              FT_IO_ERROR 3 (Sim.device [] 0 FT_IO_ERROR) eq_refl eq_refl)
    as (w' & Hrun & Hflag & Hemit & _).
  exists w'. repeat split; assumption.
Defined.

(** ** Opening a device *)

Section Opening.
Context {Hw : Type} (drv : Driver Hw).

(** The search loop started at index [i0]. *)
Lemma find_device_from (id : Z) (devinfo : list FT_DEVICE_LIST_INFO_NODE) :
  forall i0, 0 <= i0 ->
    (find_device id devinfo i0 = -1 /\
     Forall (fun node => ID node <> id) devinfo) \/
    (exists k node,
        find_device id devinfo i0 = i0 + Z.of_nat k /\
        nth_error devinfo k = Some node /\
        ID node = id /\
        Forall (fun node => ID node <> id) (firstn k devinfo)).
Proof.
  induction devinfo as [| node rest IH]; intros i0 Hi0; cbn [find_device].
  - left. split; [ reflexivity | constructor ].
  - destruct (Z.eqb_spec (ID node) id) as [E | N].
    + right. exists 0%nat, node. cbn.
      repeat split; [ lia | exact E | constructor ].
    + destruct (IH (i0 + 1)) as [[Hnone Hall] | (k & n & Hk & Hnth & Hid & Hall)];
        [ lia | | ].
      * left. split; [ exact Hnone | constructor; assumption ].
      * right. exists (S k), n. cbn.
        repeat split; [ lia | exact Hnth | exact Hid | ].
        constructor; assumption.
Qed.

(** X23. The search loop of [open] finds the first device with the
    wanted identifier: [find_device id devinfo 0] is -1 exactly when no
    node carries [id], and otherwise the index of a node that carries it
    with no such node before it. *)
Theorem find_device_first_match
    (id : Z) (devinfo : list FT_DEVICE_LIST_INFO_NODE) :
  (find_device id devinfo 0 = -1 /\
   Forall (fun node => ID node <> id) devinfo) \/
  (exists k node,
      find_device id devinfo 0 = Z.of_nat k /\
      nth_error devinfo k = Some node /\
      ID node = id /\
      Forall (fun node => ID node <> id) (firstn k devinfo)).
Proof.
  destruct (find_device_from id devinfo 0) as [H | (k & node & Hk & H)];
    [ lia | left; exact H | ].
  right. exists k, node. split; [ rewrite Hk; lia | exact H ].
Qed.

Lemma find_device_none (id : Z) (devinfo : list FT_DEVICE_LIST_INFO_NODE) :
  Forall (fun node => ID node <> id) devinfo ->
  forall i0, find_device id devinfo i0 = -1.
Proof.
  induction 1 as [| node rest Hne _ IH]; intros i0; cbn [find_device].
  - reflexivity.
  - apply Z.eqb_neq in Hne. rewrite Hne. apply IH.
Qed.

(** X24. When both enumeration calls succeed and no listed device has
    the identifier [usbVID * 0x10000 + usbPID] (in 32 bits), [open]
    returns false with the error string "no compatible devices found":
    it opens no device, emits nothing and leaves the open mode, the
    handle and the mutex alone. *)
Theorem open_no_matching_device
    (w : World Hw) (mode : OpenMode) (numDevs : Z)
    (devinfo : list FT_DEVICE_LIST_INFO_NODE) (hw1 hw2 : Hw) :
  drv _ FT_CreateDeviceInfoList (hw w) = ((FT_OK, numDevs), hw1) ->
  drv _ (FT_GetDeviceInfoList numDevs) hw1 = ((FT_OK, devinfo), hw2) ->
  Forall (fun node =>
            ID node <> to_uint32 (to_uint32 (usbVID (self w)) * 0x10000
                                  + to_uint32 (usbPID (self w))))
         devinfo ->
  exists w',
    open drv mode w = Ok false w' /\
    errorString (self w') = "no compatible devices found" /\
    calls w' = calls w ++
               [Call FT_CreateDeviceInfoList (FT_OK, numDevs);
                Call (FT_GetDeviceInfoList numDevs) (FT_OK, devinfo)] /\
    emitted w' = emitted w /\
    openMode (self w') = openMode (self w) /\
    ftdi (self w') = ftdi (self w).
Proof.
  intros Hcreate Hlist Hnone.
  unfold open; unfold_ops; cbn.
  rewrite Hcreate; cbn. rewrite Hlist; cbn.
  rewrite (find_device_none _ _ Hnone). cbn.
  rewrite <- app_assoc.
  eexists; repeat split.
Qed.

(** What [open] can end in, from a free mutex. *)
Lemma open_outcome (w : World Hw) (mode : OpenMode) :
  ftdiMutex (self w) = false ->
  exists b w2 new,
    open drv mode w = Ok b w2 /\
    calls w2 = calls w ++ new /\
    ftdiMutex (self w2) = false /\
    closed_handles new = (if b then [] else opened_handles new) /\
    FTDIreadBuffer (self w2) = FTDIreadBuffer (self w) /\
    sem (self w2) = sem (self w) /\
    errFlag (self w2) = errFlag (self w) /\
    (if b
     then openMode (self w2) = mode /\
          emitted w2 = emitted w ++ [connected] /\
          opened_handles new = [ftdi (self w2)]
     else (openMode (self w2) = openMode (self w) \/
           openMode (self w2) = NotOpen) /\
          (emitted w2 = emitted w \/
           emitted w2 = emitted w ++ [aboutToClose])).
Proof.
  intros Hfree.
  unfold open; unfold_ops; cbn -[Z.eqb].
  repeat
    (match goal with
     | |- context [drv ?R ?c ?h] =>
         let r := fresh "r" in
         destruct (drv R c h) as [r ?]; try destruct r as [? ?]
     | |- context [negb (?x =? ?y)] =>
         let E := fresh "E" in destruct (x =? y) eqn:E
     | |- context [if ?x =? ?y then _ else _] =>
         let E := fresh "E" in destruct (x =? y) eqn:E
     | |- context [close drv ?x] =>
         rewrite (close_spec drv x) by (cbn; exact Hfree)
     end; cbn -[Z.eqb]).
  all: do 3 eexists; (split; [ reflexivity | ]); cbn -[Z.eqb].
  all: repeat rewrite <- app_assoc.
  all: (split; [ reflexivity | ]); cbn -[Z.eqb].
  all: repeat match goal with
              | H : (_ =? _) = _ |- _ => first [ rewrite H | idtac ]; clear H
              end.
  all: cbn; repeat split; auto.
Qed.

(** X25. From a free mutex [open] always returns with the mutex free,
    and a failing [open] leaks no handle: the handles passed to
    [FT_Close] during the call are exactly those a successful [FT_Open]
    handed out during it, while a successful [open] closes nothing and
    keeps the handle it was given. *)
Theorem open_releases_handle_on_failure (w : World Hw) (mode : OpenMode) :
  ftdiMutex (self w) = false ->
  exists b w2 new,
    open drv mode w = Ok b w2 /\
    calls w2 = calls w ++ new /\
    ftdiMutex (self w2) = false /\
    closed_handles new = (if b then [] else opened_handles new) /\
    (b = true -> opened_handles new = [ftdi (self w2)]).
Proof.
  intros Hfree.
  destruct (open_outcome w mode Hfree)
    as (b & w2 & new & Hrun & Hcalls & Hfree2 & Hclosed & _ & _ & _ & Hb).
  exists b, w2, new. repeat split; try assumption.
  intros ->. tauto.
Qed.

(** X26. [open] never resets the receive side or the error flags: after
    it, successful or not, the buffer, the semaphore and [errFlag] are
    those from before, so bytes and errors of an earlier session are
    still there. A successful [open] ends in the requested mode with
    [connected] emitted; a failing one never emits [connected] and ends
    in the old mode or closed. *)
Theorem open_keeps_receive_state (w : World Hw) (mode : OpenMode) :
  ftdiMutex (self w) = false ->
  exists b w2,
    open drv mode w = Ok b w2 /\
    FTDIreadBuffer (self w2) = FTDIreadBuffer (self w) /\
    sem (self w2) = sem (self w) /\
    errFlag (self w2) = errFlag (self w) /\
    (b = true ->
     openMode (self w2) = mode /\ emitted w2 = emitted w ++ [connected]) /\
    (b = false ->
     (openMode (self w2) = openMode (self w) \/ openMode (self w2) = NotOpen) /\
     (emitted w2 = emitted w \/ emitted w2 = emitted w ++ [aboutToClose])).
Proof.
  intros Hfree.
  destruct (open_outcome w mode Hfree)
    as (b & w2 & new & Hrun & _ & _ & _ & Hbuf & Hsem & Hflag & Hb).
  exists b, w2. repeat split; try assumption.
  - subst b. tauto.
  - subst b. tauto.
  - subst b. tauto.
  - subst b. tauto.
Qed.

Lemma find_device_at (id : Z) (node : FT_DEVICE_LIST_INFO_NODE) :
  forall (k : nat) (devinfo : list FT_DEVICE_LIST_INFO_NODE) (i0 : Z),
    nth_error devinfo k = Some node ->
    ID node = id ->
    Forall (fun n => ID n <> id) (firstn k devinfo) ->
    find_device id devinfo i0 = i0 + Z.of_nat k.
Proof.
  induction k as [| k IH]; intros [| n rest] i0 Hnth Hid Hbefore;
    cbn in Hnth; try discriminate.
  - injection Hnth as ->. cbn [find_device].
    apply Z.eqb_eq in Hid. rewrite Hid. lia.
  - cbn [firstn] in Hbefore. inversion Hbefore as [| ? ? Hne Hrest]; subst.
    cbn [find_device]. apply Z.eqb_neq in Hne. rewrite Hne.
    rewrite (IH rest (i0 + 1) Hnth eq_refl Hrest). lia.
Qed.

(** X27. When the enumeration succeeds and the [k]-th listed device is
    the first one whose identifier is [usbVID * 0x10000 + usbPID] (in 32
    bits), [open] passes exactly the index [k] to [FT_Open], once,
    whatever happens afterwards. *)
Theorem open_picks_first_match
    (w : World Hw) (mode : OpenMode) (numDevs : Z)
    (devinfo : list FT_DEVICE_LIST_INFO_NODE) (hw1 hw2 : Hw)
    (k : nat) (node : FT_DEVICE_LIST_INFO_NODE) :
  ftdiMutex (self w) = false ->
  drv _ FT_CreateDeviceInfoList (hw w) = ((FT_OK, numDevs), hw1) ->
  drv _ (FT_GetDeviceInfoList numDevs) hw1 = ((FT_OK, devinfo), hw2) ->
  nth_error devinfo k = Some node ->
  ID node = to_uint32 (to_uint32 (usbVID (self w)) * 0x10000
                       + to_uint32 (usbPID (self w))) ->
  Forall (fun n =>
            ID n <> to_uint32 (to_uint32 (usbVID (self w)) * 0x10000
                               + to_uint32 (usbPID (self w))))
         (firstn k devinfo) ->
  exists b w2 new,
    open drv mode w = Ok b w2 /\
    calls w2 = calls w ++ new /\
    open_indices new = [Z.of_nat k].
Proof.
  intros Hfree Hcreate Hlist Hnth Hid Hbefore.
  assert (Hne : (Z.of_nat k =? -1) = false) by (apply Z.eqb_neq; lia).
  unfold open; unfold_ops; cbn -[Z.eqb Z.of_nat].
  rewrite Hcreate; cbn -[Z.eqb Z.of_nat].
  rewrite Z.eqb_refl; cbn -[Z.eqb Z.of_nat].
  rewrite Hlist; cbn -[Z.eqb Z.of_nat].
  rewrite Z.eqb_refl; cbn -[Z.eqb Z.of_nat].
  rewrite (find_device_at _ node k devinfo 0 Hnth Hid Hbefore).
  rewrite Z.add_0_l, Hne; cbn -[Z.eqb Z.of_nat].
  repeat
    (match goal with
     | |- context [drv ?R ?c ?h] =>
         let r := fresh "r" in
         destruct (drv R c h) as [r ?]; try destruct r as [? ?]
     | |- context [negb (?x =? ?y)] =>
         let E := fresh "E" in destruct (x =? y) eqn:E
     | |- context [close drv ?x] =>
         rewrite (close_spec drv x) by (cbn; exact Hfree)
     end; cbn -[Z.eqb Z.of_nat]).
  all: do 3 eexists; (split; [ reflexivity | ]); cbn -[Z.eqb Z.of_nat].
  all: repeat rewrite <- app_assoc.
  all: split; reflexivity.
Qed.

Lemma uchar_of_version_fields (v : Z) :
  to_uchar (Z.land v 0xFF0000) = 0 /\
  to_uchar (Z.land v 0xFF00) = 0 /\
  to_uchar (Z.land v 0xFF) = Z.land v 0xFF.
Proof.
  unfold to_uchar.
  rewrite <- !(Z.land_ones _ 8) by lia.
  rewrite <- !Z.land_assoc.
  change (Z.land 0xFF0000 (Z.ones 8)) with 0.
  change (Z.land 0xFF00 (Z.ones 8)) with 0.
  change (Z.land 0xFF (Z.ones 8)) with 0xFF.
  rewrite Z.land_0_r. auto.
Qed.

(** X28. The version string of a successful [open] always starts with
    "0.00.": the major and minor fields are cut to [uchar] without a
    shift, which leaves 0, and only the low byte of the version word
    answered by [FT_GetLibraryVersion] shows, as the build number. *)
Theorem open_library_version (w w2 : World Hw) (mode : OpenMode) :
  open drv mode w = Ok true w2 ->
  exists new v,
    calls w2 = calls w ++ new /\
    version_words new = [v] /\
    libraryVersion (self w2) = ("0.00." ++ arg_dec (Z.land v 0xFF) 2)%string.
Proof.
  intros H. unfold open in H; unfold_ops; cbn in H.
  repeat
    (match type of H with
     | context [drv ?R ?c ?h] =>
         let r := fresh "r" in
         destruct (drv R c h) as [r ?]; try destruct r as [? ?]
     | context [if ?b then _ else _] => destruct b
     | context [close drv ?x] => destruct (close drv x)
     end; cbn in H; try discriminate H).
  all: injection H as <-; cbn.
  all: repeat rewrite <- app_assoc; cbn.
  all: do 2 eexists; (split; [ reflexivity | ]); cbn.
  all: (split; [ reflexivity | ]).
  all: match goal with
       | |- context [Z.land ?v 255] =>
           destruct (uchar_of_version_fields v) as (-> & -> & ->)
       end.
  all: reflexivity.
Qed.


End Opening.

(** The simulated device list with the port set to 0403:6010. *)
Lemma open_no_matching_device_witness :
  exists w',
    open Sim.driver ReadWrite
      (start (with_usbPID 0x6010 Sim.fresh) (Sim.device [] 0 FT_OK))
      = Ok false w' /\
    errorString (self w') = "no compatible devices found" /\
    open_indices (calls w') = [].
Proof.
  destruct (open_no_matching_device Sim.driver
              (start (with_usbPID 0x6010 Sim.fresh) (Sim.device [] 0 FT_OK))
              ReadWrite 2 (Sim.devices (Sim.device [] 0 FT_OK))
              (Sim.device [] 0 FT_OK) (Sim.device [] 0 FT_OK)
              eq_refl eq_refl)
    as (w' & Hrun & Hstr & Hcalls & _).
  - repeat constructor; vm_compute; discriminate.
  - exists w'. split; [ exact Hrun | ]. split; [ exact Hstr | ].
    rewrite Hcalls. reflexivity.
Defined.

(** An [open] that gets a handle and then fails at [FT_SetBaudRate]:
    the handle is closed again. *)
Lemma open_releases_handle_on_failure_witness :
  exists w2,
    open driver_rejecting_baud ReadWrite
      (start Sim.fresh (Sim.device [] 0 FT_OK)) = Ok false w2 /\
    opened_handles (calls w2) = [0x7000] /\
    closed_handles (calls w2) = [0x7000].
Proof.
  destruct (open_releases_handle_on_failure driver_rejecting_baud
              (start Sim.fresh (Sim.device [] 0 FT_OK)) ReadWrite eq_refl)
    as (b & w2 & new & Hrun & Hcalls & _ & Hclosed & _).
  cbn in Hcalls. subst new.
  assert (Hb : b = false).
  { vm_compute in Hrun. injection Hrun as <- _. reflexivity. }
  subst b.
  assert (Ho : opened_handles (calls w2) = [0x7000])
    by (pose proof Hrun as H'; vm_compute in H'; injection H' as <-;
        reflexivity).
  exists w2. split; [ exact Hrun | ].
  split; [ exact Ho | rewrite Hclosed; exact Ho ].
Defined.

(** A session with stale bytes and a stale [ReadError] is opened. *)
Lemma open_keeps_receive_state_witness :
  exists w2,
    open Sim.driver ReadWrite
      (start (with_errFlag ReadError
                (with_sem 2 (with_FTDIreadBuffer [x01; x02] Sim.fresh)))
             (Sim.device [] 0 FT_OK)) = Ok true w2 /\
    FTDIreadBuffer (self w2) = [x01; x02] /\
    errFlag (self w2) = ReadError.
Proof.
  destruct (open_keeps_receive_state Sim.driver
              (start (with_errFlag ReadError
                        (with_sem 2 (with_FTDIreadBuffer [x01; x02] Sim.fresh)))
                     (Sim.device [] 0 FT_OK)) ReadWrite eq_refl)
    as (b & w2 & Hrun & Hbuf & _ & Hflag & _).
  assert (Hb : b = true).
  { vm_compute in Hrun. injection Hrun as <- _. reflexivity. }
  subst b. exists w2. repeat split; assumption.
Defined.

(** The second listed device is the first match. *)
Lemma open_picks_first_match_witness :
  exists b w2,
    open Sim.driver ReadWrite (start Sim.fresh (Sim.device [] 0 FT_OK))
      = Ok b w2 /\
    open_indices (calls w2) = [1].
Proof.
  destruct (open_picks_first_match Sim.driver
              (start Sim.fresh (Sim.device [] 0 FT_OK)) ReadWrite 2
              (Sim.devices (Sim.device [] 0 FT_OK))
              (Sim.device [] 0 FT_OK) (Sim.device [] 0 FT_OK)
              1%nat {| ID := 0x04036001 |}
              eq_refl eq_refl eq_refl eq_refl eq_refl)
    as (b & w2 & new & Hrun & Hcalls & Hidx).
  - repeat constructor; vm_compute; discriminate.
  - exists b, w2. split; [ exact Hrun | ].
    rewrite Hcalls. exact Hidx.
Defined.

(** Version word 0x00030216 of the simulated driver. *)
Lemma open_library_version_witness :
  exists w2,
    open Sim.driver ReadWrite (start Sim.fresh (Sim.device [] 0 FT_OK))
      = Ok true w2 /\
    libraryVersion (self w2) = "0.00.22".
Proof.
  assert (E : exists w2,
             open Sim.driver ReadWrite (start Sim.fresh (Sim.device [] 0 FT_OK))
               = Ok true w2)
    by (vm_compute; eexists; reflexivity).
  destruct E as [w2 E].
  destruct (open_library_version Sim.driver _ w2 ReadWrite E)
    as (new & v & Hcalls & Hv & Hstr).
  exists w2. split; [ exact E | ].
  vm_compute in E. injection E as <-. reflexivity.
Defined.

